(** * commit-action: committing files through the GitHub REST API

    A shallow embedding of [src/commit.ts].  The five helpers
    ([createBlob], [createTree], [createCommit], [updateBranch],
    [getBranchInfo]) and the entry point [commitViaAPI] are written in a
    small monad that threads the state of the remote service, records every
    call made to the local file system and to the REST client together with
    its outcome, and stops at the first exception. *)

From Stdlib Require Import ZArith List Strings.String Strings.Ascii Strings.Byte Bool Lia.
From Stdlib Require Import DecimalString.
Import ListNotations.

Open Scope string_scope.
Open Scope list_scope.
Open Scope Z_scope.

(** ** JavaScript values used by the program *)

Module JS.

(** [ToInt32]: the conversion the bitwise operators apply to their
    operands (wrap-around modulo 2^32, read as a signed number). *)
Definition ToInt32 (z : Z) : Z := (z + 2 ^ 31) mod 2 ^ 32 - 2 ^ 31.

(** A number that may be [NaN]; [None] is [NaN]. *)
Definition ToInt32_opt (n : option Z) : Z :=
  match n with
  | Some z => ToInt32 z
  | None => 0
  end.

(** The [&] operator on numbers. *)
Definition bitand (a b : option Z) : Z :=
  Z.land (ToInt32_opt a) (ToInt32_opt b).

(** Truthiness of a number produced by a bitwise operator. *)
Definition truthy_int (z : Z) : bool := negb (z =? 0).

(** Truthiness of an optional string: [undefined] and the empty string
    are falsy. *)
Definition truthy_string (s : option string) : bool :=
  match s with
  | None => false
  | Some EmptyString => false
  | Some (String _ _) => true
  end.

(** Value of a character as a digit, for radices up to 36. *)
Definition digit_value (c : ascii) : option Z :=
  let n := Z.of_N (N_of_ascii c) in
  if (48 <=? n) && (n <=? 57) then Some (n - 48)
  else if (97 <=? n) && (n <=? 122) then Some (n - 97 + 10)
  else if (65 <=? n) && (n <=? 90) then Some (n - 65 + 10)
  else None.

(** The digit loop of [parseInt]: the longest prefix of digits below the
    radix is read; [acc] is [None] until a digit has been seen. *)
Fixpoint parseInt_digits (s : string) (radix : Z) (acc : option Z)
  : option Z :=
  match s with
  | EmptyString => acc
  | String c rest =>
      match digit_value c with
      | Some d =>
          if d <? radix then
            parseInt_digits rest radix
              (Some (match acc with Some a => a * radix + d | None => d end))
          else acc
      | None => acc
      end
  end.

(** [parseInt(s, radix)] on an unsigned string without leading blanks,
    which is how the program calls it; [None] is [NaN]. *)
Definition parseInt (s : string) (radix : Z) : option Z :=
  parseInt_digits s radix None.

(** *** [Buffer.prototype.toString("base64")] *)

Definition base64_alphabet : string :=
  "ABCDEFGHIJKLMNOPQRSTUVWXYZabcdefghijklmnopqrstuvwxyz0123456789+/".

Definition base64_char (sextet : Z) : ascii :=
  match String.get (Z.to_nat sextet) base64_alphabet with
  | Some c => c
  | None => "="%char
  end.

Definition byteZ (b : byte) : Z := Z.of_N (Byte.to_N b).

Fixpoint base64 (bs : list byte) : string :=
  match bs with
  | [] => ""
  | [a] =>
      let n := Z.shiftl (byteZ a) 16 in
      String (base64_char (Z.land (Z.shiftr n 18) 63))
        (String (base64_char (Z.land (Z.shiftr n 12) 63)) "==")
  | [a; b] =>
      let n := Z.lor (Z.shiftl (byteZ a) 16) (Z.shiftl (byteZ b) 8) in
      String (base64_char (Z.land (Z.shiftr n 18) 63))
        (String (base64_char (Z.land (Z.shiftr n 12) 63))
           (String (base64_char (Z.land (Z.shiftr n 6) 63)) "="))
  | a :: b :: c :: rest =>
      let n := Z.lor (Z.lor (Z.shiftl (byteZ a) 16) (Z.shiftl (byteZ b) 8))
                 (byteZ c) in
      String (base64_char (Z.land (Z.shiftr n 18) 63))
        (String (base64_char (Z.land (Z.shiftr n 12) 63))
           (String (base64_char (Z.land (Z.shiftr n 6) 63))
              (String (base64_char (Z.land n 63)) (base64 rest))))
  end.

End JS.

(** ** Data model *)

(** A thrown [Error]; only its message is observed. *)
Inductive Exn : Type :=
| Error (message : string).

(** Outcome of a call that may throw (or of a promise that may reject). *)
Inductive Result (A : Type) : Type :=
| Ok (a : A)
| Throw (e : Exn).

Arguments Ok {A} a.
Arguments Throw {A} e.

Record CommitOptions : Type := {
  token : string;
  owner : string;
  repo : string;
  branch : string;
  message : string;
  filePaths : list string;
  baseSha : option string
}.

Record CommitResult : Type := {
  commitSha : string;
  treeSha : string;
  filesCommitted : nat
}.

(** What [createBlob] resolves to. *)
Record BlobResult : Type := {
  blob_sha : string;
  blob_mode : string
}.

(** What [getBranchInfo] resolves to. *)
Record BranchInfo : Type := {
  info_sha : string;
  info_treeSha : string
}.

(** One element of the [tree] array sent to [git.createTree]. *)
Record TreeEntry : Type := {
  entry_path : string;
  entry_mode : string;
  entry_type : string;
  entry_sha : string
}.

(** [fs.Stats], reduced to the field the program reads. *)
Record Stats : Type := {
  st_mode : Z
}.

(** The part of the [fs] module the program uses.  The program only reads
    the file system, so it is an environment and not part of the state. *)
Record FileSystem : Type := {
  existsSync : string -> bool;
  readFileSync : string -> Result (list byte);
  statSync : string -> Result Stats
}.

(** The REST client, [octokit.rest.git], over a remote service whose state
    has type [R].  Every method takes the fields of its parameter object,
    and gives the outcome of the request and the next state of the
    service.  A response is reduced to the one identifier the program
    reads from it ([ref.object.sha], [commit.tree.sha], [blob.sha],
    [tree.sha], [commit.sha]). *)
Record Octokit (R : Type) : Type := {
  (* getRef({owner, repo, ref}) *)
  getRef : string -> string -> string -> R -> Result string * R;
  (* getCommit({owner, repo, commit_sha}) *)
  getCommit : string -> string -> string -> R -> Result string * R;
  (* createBlob({owner, repo, content, encoding}) *)
  createBlob_ : string -> string -> string -> string -> R -> Result string * R;
  (* createTree({owner, repo, base_tree, tree}) *)
  createTree_ :
    string -> string -> string -> list TreeEntry -> R -> Result string * R;
  (* createCommit({owner, repo, message, tree, parents}) *)
  createCommit_ :
    string -> string -> string -> string -> list string -> R
    -> Result string * R;
  (* updateRef({owner, repo, ref, sha, force}) *)
  updateRef : string -> string -> string -> string -> bool -> R
              -> Result unit * R
}.

Arguments getRef {R} _ _ _ _ _.
Arguments getCommit {R} _ _ _ _ _.
Arguments createBlob_ {R} _ _ _ _ _ _.
Arguments createTree_ {R} _ _ _ _ _ _.
Arguments createCommit_ {R} _ _ _ _ _ _ _.
Arguments updateRef {R} _ _ _ _ _ _ _.

(** One call the program made, with its arguments and its outcome. *)
Inductive Event : Type :=
| FsExistsSync (path : string) (r : bool)
| FsReadFileSync (path : string) (r : Result (list byte))
| FsStatSync (path : string) (r : Result Stats)
| GitGetRef (owner repo ref : string) (r : Result string)
| GitGetCommit (owner repo commit_sha : string) (r : Result string)
| GitCreateBlob (owner repo content encoding : string) (r : Result string)
| GitCreateTree (owner repo base_tree : string) (tree : list TreeEntry)
    (r : Result string)
| GitCreateCommit (owner repo message tree : string) (parents : list string)
    (r : Result string)
| GitUpdateRef (owner repo ref sha : string) (force : bool) (r : Result unit).

(** Calls that reach the remote service. *)
Definition is_remote (e : Event) : bool :=
  match e with
  | FsExistsSync _ _ | FsReadFileSync _ _ | FsStatSync _ _ => false
  | _ => true
  end.

Definition remote_calls (evs : list Event) : list Event :=
  filter is_remote evs.

Definition is_getRef (e : Event) : bool :=
  match e with GitGetRef _ _ _ _ => true | _ => false end.

Definition is_getCommit (e : Event) : bool :=
  match e with GitGetCommit _ _ _ _ => true | _ => false end.

Definition is_createBlob (e : Event) : bool :=
  match e with GitCreateBlob _ _ _ _ _ => true | _ => false end.

Definition is_createTree (e : Event) : bool :=
  match e with GitCreateTree _ _ _ _ _ => true | _ => false end.

Definition is_createCommit (e : Event) : bool :=
  match e with GitCreateCommit _ _ _ _ _ _ => true | _ => false end.

Definition is_updateRef (e : Event) : bool :=
  match e with GitUpdateRef _ _ _ _ _ _ => true | _ => false end.

(** Every invocation of [createBlob] starts with one [fs.existsSync] on its
    path and the program calls [fs.existsSync] nowhere else, so these
    events count the invocations of [createBlob] per path. *)
Definition is_createBlob_invocation (p : string) (e : Event) : bool :=
  match e with
  | FsExistsSync q _ => String.eqb p q
  | _ => false
  end.

Definition createBlob_invocations (p : string) (evs : list Event) : nat :=
  List.length (filter (is_createBlob_invocation p) evs).

(** The paths on which [createBlob] was invoked, in order. *)
Definition createBlob_invoked_paths (evs : list Event) : list string :=
  flat_map (fun e => match e with FsExistsSync q _ => [q] | _ => [] end) evs.

(** ** The monad of the program

    A computation starts from a state of the remote service and gives an
    outcome, the state the service is left in, and the calls it made, in
    order.  An exception ends the computation. *)

Definition M (R A : Type) : Type := R -> Result A * R * list Event.

Definition ret {R A} (a : A) : M R A := fun s => (Ok a, s, []).

Definition throw {R A} (e : Exn) : M R A := fun s => (Throw e, s, []).

Definition bind {R A B} (m : M R A) (k : A -> M R B) : M R B :=
  fun s =>
    match m s with
    | (Ok a, s1, e1) =>
        match k a s1 with
        | (r, s2, e2) => (r, s2, e1 ++ e2)
        end
    | (Throw x, s1, e1) => (Throw x, s1, e1)
    end.

Declare Scope js_scope.
Delimit Scope js_scope with js.
Notation "x <- m ;; k" := (bind m (fun x => k))
  (at level 100, m at next level, right associativity) : js_scope.
Notation "m ;; k" := (bind m (fun _ => k))
  (at level 100, right associativity) : js_scope.
Open Scope js_scope.

(** A synchronous call that may throw, without any recorded effect. *)
Definition lift {R A} (r : Result A) : M R A := fun s => (r, s, []).

Definition outcome {R A} (x : Result A * R * list Event) : Result A :=
  fst (fst x).
Definition final {R A} (x : Result A * R * list Event) : R :=
  snd (fst x).
Definition events {R A} (x : Result A * R * list Event) : list Event :=
  snd x.

(** [emits P m]: every call made by [m], from any state, satisfies [P]. *)
Definition emits {R A} (P : Event -> Prop) (m : M R A) : Prop :=
  forall s, Forall P (events (m s)).

(** ** The program, [src/commit.ts] *)

Section Program.

(** State of the remote service. *)
Variable R : Type.

(** The [fs] module. *)
Variable fs : FileSystem.

(** [github.getOctokit]: builds the client for a token, or throws. *)
Variable getOctokit : string -> Result (Octokit R).

(** *** Recorded calls *)

Definition fs_existsSync (path : string) : M R bool :=
  fun s => (Ok (existsSync fs path), s,
            [FsExistsSync path (existsSync fs path)]).

Definition fs_readFileSync (path : string) : M R (list byte) :=
  fun s => (readFileSync fs path, s,
            [FsReadFileSync path (readFileSync fs path)]).

Definition fs_statSync (path : string) : M R Stats :=
  fun s => (statSync fs path, s, [FsStatSync path (statSync fs path)]).

Definition git_getRef (octokit : Octokit R) (owner repo ref : string)
  : M R string :=
  fun s =>
    let '(r, s') := getRef octokit owner repo ref s in
    (r, s', [GitGetRef owner repo ref r]).

Definition git_getCommit (octokit : Octokit R)
  (owner repo commit_sha : string) : M R string :=
  fun s =>
    let '(r, s') := getCommit octokit owner repo commit_sha s in
    (r, s', [GitGetCommit owner repo commit_sha r]).

Definition git_createBlob (octokit : Octokit R)
  (owner repo content encoding : string) : M R string :=
  fun s =>
    let '(r, s') := createBlob_ octokit owner repo content encoding s in
    (r, s', [GitCreateBlob owner repo content encoding r]).

Definition git_createTree (octokit : Octokit R)
  (owner repo base_tree : string) (tree : list TreeEntry) : M R string :=
  fun s =>
    let '(r, s') := createTree_ octokit owner repo base_tree tree s in
    (r, s', [GitCreateTree owner repo base_tree tree r]).

Definition git_createCommit (octokit : Octokit R)
  (owner repo message tree : string) (parents : list string) : M R string :=
  fun s =>
    let '(r, s') :=
      createCommit_ octokit owner repo message tree parents s in
    (r, s', [GitCreateCommit owner repo message tree parents r]).

Definition git_updateRef (octokit : Octokit R)
  (owner repo ref sha : string) (force : bool) : M R unit :=
  fun s =>
    let '(r, s') := updateRef octokit owner repo ref sha force s in
    (r, s', [GitUpdateRef owner repo ref sha force r]).

(** *** [createBlob] *)

(** The conditional expression on the permission bits,
    [stats.mode & parseInt("111", 8) ? "100755" : "100644"]. *)
Definition file_mode (mode : Z) : string :=
  if JS.truthy_int (JS.bitand (Some mode) (JS.parseInt "111" 8))
  then "100755" else "100644".

Definition createBlob (octokit : Octokit R) (owner repo filePath : string)
  : M R BlobResult :=
  found <- fs_existsSync filePath ;;
  if negb found then
    throw (Error ("File not found: " ++ filePath)%string)
  else
    content <- fs_readFileSync filePath ;;
    let base64Content := JS.base64 content in
    blob <- git_createBlob octokit owner repo base64Content "base64" ;;
    stats <- fs_statSync filePath ;;
    let mode := file_mode (st_mode stats) in
    ret {| blob_sha := blob; blob_mode := mode |}.

(** *** [createTree] *)

(** The [for ... of] loop; [treeEntries] is the array built so far. *)
Fixpoint createTree_loop (octokit : Octokit R) (owner repo : string)
  (filePaths : list string) (treeEntries : list TreeEntry)
  : M R (list TreeEntry) :=
  match filePaths with
  | [] => ret treeEntries
  | filePath :: rest =>
      b <- createBlob octokit owner repo filePath ;;
      createTree_loop octokit owner repo rest
        (treeEntries ++
           [{| entry_path := filePath;
               entry_mode := blob_mode b;
               entry_type := "blob";
               entry_sha := blob_sha b |}])
  end.

Definition createTree (octokit : Octokit R)
  (owner repo baseTreeSha : string) (filePaths : list string)
  : M R string :=
  treeEntries <- createTree_loop octokit owner repo filePaths [] ;;
  tree <- git_createTree octokit owner repo baseTreeSha treeEntries ;;
  ret tree.

(** *** [createCommit] *)

Definition createCommit (octokit : Octokit R)
  (owner repo treeSha parentSha message : string) : M R string :=
  commit <- git_createCommit octokit owner repo message treeSha
              [parentSha] ;;
  ret commit.

(** *** [updateBranch] *)

(** [force] is an optional parameter; [None] is an omitted (or
    [undefined]) argument, which takes the default value [false]. *)
Definition updateBranch (octokit : Octokit R)
  (owner repo branch commitSha : string) (force : option bool) : M R unit :=
  let force := match force with Some f => f | None => false end in
  git_updateRef octokit owner repo ("heads/" ++ branch)%string commitSha
    force.

(** *** [getBranchInfo] *)

Definition getBranchInfo (octokit : Octokit R) (owner repo branch : string)
  : M R BranchInfo :=
  ref <- git_getRef octokit owner repo ("heads/" ++ branch)%string ;;
  commit <- git_getCommit octokit owner repo ref ;;
  ret {| info_sha := ref; info_treeSha := commit |}.

(** *** [commitViaAPI] *)

(** The string a truthy [baseSha] holds (the narrowing of [string |
    undefined] to [string] inside [if (baseSha)]). *)
Definition narrowed (s : option string) : string :=
  match s with Some v => v | None => "" end.

Definition commitViaAPI (options : CommitOptions) : M R CommitResult :=
  let token := token options in
  let owner := owner options in
  let repo := repo options in
  let branch := branch options in
  let message := message options in
  let filePaths := filePaths options in
  let baseSha := baseSha options in
  if (List.length filePaths =? 0)%nat then
    throw (Error "No files to commit")
  else
    octokit <- lift (getOctokit token) ;;
    base <-
      (if JS.truthy_string baseSha then
         let baseSha := narrowed baseSha in
         commit <- git_getCommit octokit owner repo baseSha ;;
         ret (baseSha, commit)
       else
         branchInfo <- getBranchInfo octokit owner repo branch ;;
         ret (info_sha branchInfo, info_treeSha branchInfo)) ;;
    let branchSha := fst base in
    let baseTreeSha := snd base in
    newTreeSha <- createTree octokit owner repo baseTreeSha filePaths ;;
    commitSha <- createCommit octokit owner repo newTreeSha branchSha
                   message ;;
    updateBranch octokit owner repo branch commitSha (Some false) ;;
    ret {| commitSha := commitSha;
           treeSha := newTreeSha;
           filesCommitted := List.length filePaths |}.

End Program.

Arguments fs_existsSync {R} fs path _.
Arguments fs_readFileSync {R} fs path _.
Arguments fs_statSync {R} fs path _.
Arguments git_getRef {R} octokit owner repo ref _.
Arguments git_getCommit {R} octokit owner repo commit_sha _.
Arguments git_createBlob {R} octokit owner repo content encoding _.
Arguments git_createTree {R} octokit owner repo base_tree tree _.
Arguments git_createCommit {R} octokit owner repo message tree parents _.
Arguments git_updateRef {R} octokit owner repo ref sha force _.
Arguments createBlob {R} fs octokit owner repo filePath _.
Arguments createTree_loop {R} fs octokit owner repo filePaths treeEntries _.
Arguments createTree {R} fs octokit owner repo baseTreeSha filePaths _.
Arguments createCommit {R} octokit owner repo treeSha parentSha message _.
Arguments updateBranch {R} octokit owner repo branch commitSha force _.
Arguments getBranchInfo {R} octokit owner repo branch _.
Arguments commitViaAPI {R} fs getOctokit options _.

(** *** The stages of [commitViaAPI]

    The two halves of the body of [commitViaAPI] after the client is
    built, under names of their own: the [if (baseSha) ... else ...]
    statement, which gives [(branchSha, baseTreeSha)], and the three steps
    that follow it.  [commitViaAPI_stages] below shows that [commitViaAPI]
    is their composition. *)

Definition resolveBase {R} (octokit : Octokit R) (o : CommitOptions)
  : M R (string * string) :=
  if JS.truthy_string (baseSha o) then
    commit <- git_getCommit octokit (owner o) (repo o) (narrowed (baseSha o)) ;;
    ret (narrowed (baseSha o), commit)
  else
    branchInfo <- getBranchInfo octokit (owner o) (repo o) (branch o) ;;
    ret (info_sha branchInfo, info_treeSha branchInfo).

Definition commitOnBase {R} (fs : FileSystem) (octokit : Octokit R)
  (o : CommitOptions) (base : string * string) : M R CommitResult :=
  newTreeSha <- createTree fs octokit (owner o) (repo o) (snd base)
                  (filePaths o) ;;
  commitSha <- createCommit octokit (owner o) (repo o) newTreeSha (fst base)
                 (message o) ;;
  updateBranch octokit (owner o) (repo o) (branch o) commitSha (Some false) ;;
  ret {| commitSha := commitSha;
         treeSha := newTreeSha;
         filesCommitted := List.length (filePaths o) |}.

(** The calls [commitViaAPI] can make once the tree is built: a
    [createCommit] whose only parent is the base, and an [updateRef]
    without [force]. *)
Definition after_tree (o : CommitOptions) (base newTree : string)
  (e : Event) : Prop :=
  match e with
  | GitCreateCommit ow rp msg tree parents _ =>
      ow = owner o /\ rp = repo o /\ msg = message o /\ tree = newTree
      /\ parents = [base]
  | GitUpdateRef ow rp ref _ force _ =>
      ow = owner o /\ rp = repo o /\ ref = ("heads/" ++ branch o)%string
      /\ force = false
  | _ => False
  end.

(** A call made on the base [(base, baseTree)]: no further lookup, a tree
    layered on [baseTree], a commit whose parents are [[base]]. *)
Definition built_on (base baseTree : string) (e : Event) : Prop :=
  match e with
  | GitGetRef _ _ _ _ | GitGetCommit _ _ _ _ => False
  | GitCreateTree _ _ base_tree _ _ => base_tree = baseTree
  | GitCreateCommit _ _ _ _ parents _ => parents = [base]
  | _ => True
  end.

(** The calls of a run that takes its base from the commit [b]: the
    lookup of [b] comes first; if it fails nothing follows, otherwise
    every later call is made on [b] and its tree. *)
Definition resolved_from_commit (o : CommitOptions) (b : string)
  (evs : list Event) : Prop :=
  exists r tail,
    evs = GitGetCommit (owner o) (repo o) b r :: tail
    /\ match r with
       | Ok t => Forall (built_on b t) tail
       | Throw _ => tail = []
       end.

(** The calls of a run that takes its base from the branch: the lookup of
    the reference comes first, and the run goes on from the commit it
    names. *)
Definition resolved_from_branch (o : CommitOptions) (evs : list Event)
  : Prop :=
  exists r tail,
    evs = GitGetRef (owner o) (repo o) ("heads/" ++ branch o)%string r :: tail
    /\ match r with
       | Ok tip => resolved_from_commit o tip tail
       | Throw _ => tail = []
       end.

(** The [force] flag of an [updateRef] call. *)
Definition update_force (e : Event) : option bool :=
  match e with
  | GitUpdateRef _ _ _ _ force _ => Some force
  | _ => None
  end.

(** The [parents] of a [createCommit] call. *)
Definition commit_parents (e : Event) : option (list string) :=
  match e with
  | GitCreateCommit _ _ _ _ parents _ => Some parents
  | _ => None
  end.

Definition is_existsSync (e : Event) : bool :=
  match e with FsExistsSync _ _ => true | _ => false end.

(** [options] with another [baseSha]. *)
Definition with_baseSha (o : CommitOptions) (b : option string)
  : CommitOptions :=
  {| token := token o; owner := owner o; repo := repo o;
     branch := branch o; message := message o;
     filePaths := filePaths o; baseSha := b |}.

(** Octal literals of the permission masks. *)
Definition o111 : Z := 1 * 64 + 1 * 8 + 1.
Definition o644 : Z := 6 * 64 + 4 * 8 + 4.
Definition o755 : Z := 7 * 64 + 5 * 8 + 5.

(** ** The world of the unit tests

    The mocks of [__tests__/unit/commit.test.ts]: every request resolves to
    a fixed identifier; the state of the service counts the requests it
    served. *)

Module Mock.

Definition octokit : Octokit nat := {|
  getRef := fun _ _ _ n => (Ok "base-sha", S n);
  getCommit := fun _ _ _ n => (Ok "base-tree-sha", S n);
  createBlob_ := fun _ _ _ _ n => (Ok "blob-sha", S n);
  createTree_ := fun _ _ _ _ n => (Ok "new-tree-sha", S n);
  createCommit_ := fun _ _ _ _ _ n => (Ok "commit-sha", S n);
  updateRef := fun _ _ _ _ _ n => (Ok tt, S n)
|}.

(** [github.getOctokit] refuses an empty token. *)
Definition getOctokit (token : string) : Result (Octokit nat) :=
  if String.eqb token "" then
    Throw (Error "Parameter token or opts.auth is required")
  else Ok octokit.

(** Every path exists, holds ["content"] and has mode [0o644]. *)
Definition fs : FileSystem := {|
  existsSync := fun _ => true;
  readFileSync := fun _ => Ok (list_byte_of_string "content");
  statSync := fun _ => Ok {| st_mode := o644 |}
|}.

(** The same, with executable files. *)
Definition fs_exec : FileSystem := {|
  existsSync := fun _ => true;
  readFileSync := fun _ => Ok (list_byte_of_string "content");
  statSync := fun _ => Ok {| st_mode := o755 |}
|}.

(** The same as [fs], without ["nonexistent.txt"]. *)
Definition fs_missing : FileSystem := {|
  existsSync := fun p => negb (String.eqb p "nonexistent.txt");
  readFileSync := fun _ => Ok (list_byte_of_string "content");
  statSync := fun _ => Ok {| st_mode := o644 |}
|}.

Definition options (paths : list string) (base : option string)
  : CommitOptions :=
  {| token := "test-token"; owner := "owner"; repo := "repo";
     branch := "dev"; message := "Test commit";
     filePaths := paths; baseSha := base |}.

End Mock.

(** ** The command-line runner, [src/commit-runner.ts] *)

(** *** String methods the runner uses

    A string is its sequence of code units, all below 256. *)

Module JSString.

(** White space and line terminators ([String.prototype.trim] and the
    class [\s] of regular expressions): TAB, LF, VT, FF, CR, SP, NBSP. *)
Definition is_space (c : ascii) : bool :=
  let n := nat_of_ascii c in
  ((9 <=? n)%nat && (n <=? 13)%nat) || (n =? 32)%nat || (n =? 160)%nat.

(** Line terminators, which [.] does not match: LF, CR. *)
Definition is_line_terminator (c : ascii) : bool :=
  let n := nat_of_ascii c in
  (n =? 10)%nat || (n =? 13)%nat.

(** [s.split(sep)] for a separator of one character. *)
Fixpoint split (sep : ascii) (s : string) : list string :=
  match s with
  | EmptyString => [""]
  | String c rest =>
      if Ascii.eqb c sep then "" :: split sep rest
      else
        match split sep rest with
        | [] => [String c ""]
        | piece :: pieces => String c piece :: pieces
        end
  end.

Fixpoint trimStart (s : string) : string :=
  match s with
  | EmptyString => ""
  | String c rest => if is_space c then trimStart rest else s
  end.

Fixpoint trimEnd (s : string) : string :=
  match s with
  | EmptyString => ""
  | String c rest =>
      match trimEnd rest with
      | EmptyString => if is_space c then "" else String c ""
      | kept => String c kept
      end
  end.

(** [s.trim()]. *)
Definition trim (s : string) : string := trimEnd (trimStart s).

(** [s.startsWith(p)]. *)
Definition startsWith (s p : string) : bool := String.prefix p s.

Fixpoint drop (n : nat) (s : string) : string :=
  match n, s with
  | O, _ => s
  | S _, EmptyString => ""
  | S n', String _ rest => drop n' rest
  end.

(** [s.replace(pattern, replacement)] for a string pattern and a
    replacement without [$]: the first occurrence is replaced. *)
Fixpoint replace (pattern replacement s : string) : string :=
  if String.prefix pattern s then
    (replacement ++ drop (String.length pattern) s)%string
  else
    match s with
    | EmptyString => ""
    | String c rest => String c (replace pattern replacement rest)
    end.

(** [a || b] on values that are a string or [undefined]. *)
Definition or_else (a b : option string) : option string :=
  if JS.truthy_string a then a else b.

(** [n.toString()] and [`${n}`] for a length. *)
Definition of_nat (n : nat) : string :=
  NilZero.string_of_uint (Nat.to_uint n).

(** The part of [.+$] in [/^[AM]\s+(.+)$/]: the rest of the input, which
    has to be non-empty and free of line terminators. *)
Fixpoint no_line_terminator (s : string) : bool :=
  match s with
  | EmptyString => true
  | String c rest => negb (is_line_terminator c) && no_line_terminator rest
  end.

Definition match_rest (s : string) : option string :=
  match s with
  | EmptyString => None
  | String _ _ => if no_line_terminator s then Some s else None
  end.

(** The part [\s+(.+)$]: [\s+] is greedy, so a longer run of white space
    is tried before the run is ended. *)
Fixpoint match_spaces (s : string) : option string :=
  match s with
  | EmptyString => None
  | String c rest =>
      if is_space c then
        match match_spaces rest with
        | Some captured => Some captured
        | None => match_rest rest
        end
      else None
  end.

(** [line.match(/^[AM]\s+(.+)$/)], reduced to its first group; [None] is
    [null]. *)
Definition match_status_line (line : string) : option string :=
  match line with
  | EmptyString => None
  | String c rest =>
      if Ascii.eqb c "A" || Ascii.eqb c "M" then match_spaces rest else None
  end.

End JSString.

(** The double quote, as a string. *)
Definition dquote : string := String (ascii_of_nat 34) "".

(** [error.message]. *)
Definition exn_message (e : Exn) : string :=
  match e with Error m => m end.

(** [stats.isDirectory()] and [stats.isFile()], which [fs.Stats] computes
    from [mode]: [(mode & S_IFMT) === S_IFDIR], [... === S_IFREG]. *)
Definition S_IFMT : Z := 15 * 4096.
Definition S_IFDIR : Z := 4 * 4096.
Definition S_IFREG : Z := 8 * 4096.

Definition isDirectory (stats : Stats) : bool :=
  JS.bitand (Some (st_mode stats)) (Some S_IFMT) =? S_IFDIR.

Definition isFile (stats : Stats) : bool :=
  JS.bitand (Some (st_mode stats)) (Some S_IFMT) =? S_IFREG.

(** A call to [@actions/core] or to [process.exit]. *)
Inductive CoreCall : Type :=
| Info (message : string)
| SetOutput (name value : string)
| SetFailed (message : string)
| Exit (code : Z).

Definition is_setOutput (c : CoreCall) : bool :=
  match c with SetOutput _ _ => true | _ => false end.

Definition is_exit (c : CoreCall) : bool :=
  match c with Exit _ => true | _ => false end.



(** The characters of a string, and strings made of white space. *)
Definition chars (s : string) : list ascii := list_ascii_of_string s.

Definition all_space (s : string) : Prop :=
  Forall (fun c => JSString.is_space c = true) (chars s).

(** Sequencing of calls that may throw. *)
Definition and_then {A B} (r : Result A) (k : A -> Result B) : Result B :=
  match r with
  | Ok a => k a
  | Throw e => Throw e
  end.

Section Runner.

(** State of the remote service. *)
Variable R : Type.

(** The [fs] module, with [fs.readdirSync]. *)
Variable fs : FileSystem.
Variable readdirSync : string -> Result (list string).

(** [path.join] on two segments. *)
Variable path_join : string -> string -> string.

(** [github.getOctokit]. *)
Variable getOctokit : string -> Result (Octokit R).

(** [process.env]. *)
Variable env : string -> option string.

(** [github.context.repo], a getter that may throw, and
    [github.context.ref], which is [undefined] when the action runs
    without [GITHUB_REF]. *)
Variable context_repo : Result (string * string).
Variable context_ref : option string.

(** [execSync(command, { encoding: "utf-8" })]. *)
Variable execSync : string -> Result string.

(** The depth of recursion the runtime allows before it throws a
    [RangeError]. *)
Variable stack : nat.

(** What the runtime throws when [replace] is read from [undefined]. *)
Definition TypeError_replace : Exn :=
  Error "Cannot read properties of undefined (reading 'replace')".

Definition RangeError_stack : Exn :=
  Error "Maximum call stack size exceeded".

(** Lines 24-29: the token. *)
Definition main_token : Result string :=
  let token :=
    JSString.or_else (env "GITHUB_TOKEN") (env "GH_TOKEN") in
  if negb (JS.truthy_string token) then
    Throw (Error "GITHUB_TOKEN or GH_TOKEN environment variable is required")
  else Ok (narrowed token).

(** Lines 32-40: owner and repository. *)
Definition main_repository : Result (string * string) :=
  and_then
    (if JS.truthy_string (env "GITHUB_REPOSITORY") then
       Ok (narrowed (env "GITHUB_REPOSITORY"))
     else
       and_then context_repo
         (fun r => Ok (fst r ++ "/" ++ snd r)%string))
    (fun repository =>
       let parts := JSString.split "/" repository in
       let owner := nth_error parts 0 in
       let repo := nth_error parts 1 in
       if negb (JS.truthy_string owner) || negb (JS.truthy_string repo) then
         Throw (Error ("Invalid repository format: " ++ repository
                       ++ ". Expected " ++ dquote ++ "owner/repo"
                       ++ dquote)%string)
       else Ok (narrowed owner, narrowed repo)).

(** Lines 43-48: the branch. *)
Definition main_branch : Result string :=
  let branch := env "GITHUB_REF" in
  if JS.truthy_string branch
     && JSString.startsWith (narrowed branch) "refs/heads/" then
    Ok (JSString.replace "refs/heads/" "" (narrowed branch))
  else if negb (JS.truthy_string branch) then
    match context_ref with
    | Some ref => Ok (JSString.replace "refs/heads/" "" ref)
    | None => Throw TypeError_replace
    end
  else Ok (narrowed branch).

(** Line 51: the message. *)
Definition main_message : string :=
  narrowed
    (JSString.or_else (env "COMMIT_MESSAGE") (Some "chore: update files")).

(** Lines 67-78: the loop of [findFiles] over the entries of [dir];
    [recur] is [findFiles] itself and [files] the array built so far. *)
Fixpoint findFiles_loop (recur : string -> Result (list string))
  (dir : string) (entries : list string) (files : list string)
  : Result (list string) :=
  match entries with
  | [] => Ok files
  | entry :: rest =>
      let fullPath := path_join dir entry in
      and_then (statSync fs fullPath)
        (fun entryStats =>
           if isDirectory entryStats then
             and_then (recur fullPath)
               (fun found => findFiles_loop recur dir rest (files ++ found))
           else if isFile entryStats then
             findFiles_loop recur dir rest (files ++ [fullPath])
           else findFiles_loop recur dir rest files)
  end.

(** Lines 66-79: [findFiles], with [depth] calls left on the stack. *)
Fixpoint findFiles (depth : nat) (dir : string) : Result (list string) :=
  match depth with
  | O => Throw RangeError_stack
  | S depth' =>
      and_then (readdirSync dir)
        (fun entries => findFiles_loop (findFiles depth') dir entries [])
  end.

(** Lines 61-85: the loop over the listed paths; [filePaths] is the array
    built so far. *)
Fixpoint expand_paths (paths : list string) (filePaths : list string)
  : Result (list string) :=
  match paths with
  | [] => Ok filePaths
  | pathItem :: rest =>
      if existsSync fs pathItem then
        and_then (statSync fs pathItem)
          (fun stats =>
             if isDirectory stats then
               and_then (findFiles stack pathItem)
                 (fun found => expand_paths rest (filePaths ++ found))
             else expand_paths rest (filePaths ++ [pathItem]))
      else expand_paths rest filePaths
  end.

(** Lines 56-58: the entries of [FILE_PATHS]. *)
Definition listed_paths (FILE_PATHS : string) : list string :=
  filter (fun p => (0 <? String.length p)%nat)
    (map JSString.trim (JSString.split "," FILE_PATHS)).

(** Lines 92-103: the files of a [git status --porcelain] output. *)
Definition changed_files (gitStatus : string) : list string :=
  flat_map
    (fun file =>
       match file with
       | Some f => if existsSync fs f then [f] else []
       | None => []
       end)
    (map JSString.match_status_line
       (filter (fun line => (0 <? String.length (JSString.trim line))%nat)
          (JSString.split "010" gitStatus))).

(** Lines 54-111: the file paths. *)
Definition main_filePaths : Result (list string) :=
  if JS.truthy_string (env "FILE_PATHS") then
    expand_paths (listed_paths (narrowed (env "FILE_PATHS"))) []
  else
    match execSync "git status --porcelain" with
    | Ok gitStatus => Ok (changed_files gitStatus)
    | Throw error =>
        Throw (Error ("Failed to detect changed files from git status: "
                      ++ exn_message error)%string)
    end.

(** The [catch] block of [main]. *)
Definition main_catch (error : Exn) : list CoreCall :=
  [SetFailed (exn_message error); Exit 1].

(** [main]: the calls to [@actions/core] and [process.exit] it makes, the
    state it leaves the remote service in, and the calls [commitViaAPI]
    recorded. *)
Definition main (s : R) : list CoreCall * R * list Event :=
  match
    and_then main_token (fun token =>
    and_then main_repository (fun repository =>
    and_then main_branch (fun branch =>
    and_then main_filePaths (fun filePaths =>
    Ok (token, repository, branch, main_message, filePaths)))))
  with
  | Throw error => (main_catch error, s, [])
  | Ok (token, repository, branch, message, filePaths) =>
      if (List.length filePaths =? 0)%nat then
        ([Info "No files to commit"; Exit 0], s, [])
      else
        let infos :=
          [ Info ("Committing " ++ JSString.of_nat (List.length filePaths)
                  ++ " file(s) to branch " ++ branch)%string;
            Info ("Files: " ++ String.concat ", " filePaths)%string ] in
        let baseSha := env "BASE_SHA" in
        match
          commitViaAPI fs getOctokit
            {| token := token; owner := fst repository;
               repo := snd repository; branch := branch;
               message := message; filePaths := filePaths;
               baseSha := baseSha |} s
        with
        | (Ok result, s', evs) =>
            (infos ++
             [ Info ("Created signed commit " ++ commitSha result
                     ++ " via GitHub API")%string;
               SetOutput "commit-sha" (commitSha result);
               SetOutput "tree-sha" (treeSha result);
               SetOutput "files-committed"
                 (JSString.of_nat (filesCommitted result)) ],
             s', evs)
        | (Throw error, s', evs) => (infos ++ main_catch error, s', evs)
        end
  end.

End Runner.

Arguments main {R} fs readdirSync path_join getOctokit env context_repo
  context_ref execSync stack s.

(** The identifiers the successful create-blob calls returned, and the
    tree modes of the files whose permissions were read, in order. *)
Definition created_blob_shas (evs : list Event) : list string :=
  flat_map
    (fun e => match e with
              | GitCreateBlob _ _ _ _ (Ok sha) => [sha]
              | _ => []
              end) evs.

Definition stat_modes (evs : list Event) : list string :=
  flat_map
    (fun e => match e with
              | FsStatSync _ (Ok stats) => [file_mode (st_mode stats)]
              | _ => []
              end) evs.

(** *** Failed calls

    The exception a recorded call ended with.  A negative
    [fs.existsSync] counts as the failure of [createBlob] it leads to,
    since the program checks existence nowhere else. *)
Definition event_error (e : Event) : option Exn :=
  match e with
  | FsExistsSync path false =>
      Some (Error ("File not found: " ++ path)%string)
  | FsExistsSync _ true => None
  | FsReadFileSync _ (Throw x) | FsStatSync _ (Throw x)
  | GitGetRef _ _ _ (Throw x) | GitGetCommit _ _ _ (Throw x)
  | GitCreateBlob _ _ _ _ (Throw x) | GitCreateTree _ _ _ _ (Throw x)
  | GitCreateCommit _ _ _ _ _ (Throw x) | GitUpdateRef _ _ _ _ _ (Throw x) =>
      Some x
  | _ => None
  end.

(** A run stops at its first failed call: when it succeeds no recorded
    call has failed; when it throws, the last recorded call is the only
    one that failed, and the run throws the exception of that call. *)
Definition stops_at_first_failure {R A}
  (run : Result A * R * list Event) : Prop :=
  match outcome run with
  | Ok _ => Forall (fun e => event_error e = None) (events run)
  | Throw x =>
      exists before failed,
        events run = before ++ [failed]
        /\ Forall (fun e => event_error e = None) before
        /\ event_error failed = Some x
  end.

Definition fail_fast {R A} (m : M R A) : Prop :=
  forall s, stops_at_first_failure (m s).

(** *** A working directory for the runner *)

Module MockRunner.

Definition lookup (vars : list (string * string)) (name : string)
  : option string :=
  match find (fun kv => String.eqb (fst kv) name) vars with
  | Some kv => Some (snd kv)
  | None => None
  end.

(** [docs/] holds [a.md] and [sub/b.md]; [README.md] and [run.sh] are
    files at the top. *)
Definition fs : FileSystem := {|
  existsSync := fun p =>
    existsb (String.eqb p)
      ["docs"; "docs/a.md"; "docs/sub"; "docs/sub/b.md"; "README.md";
       "run.sh"];
  readFileSync := fun _ => Ok (list_byte_of_string "content");
  statSync := fun p =>
    if existsb (String.eqb p) ["docs"; "docs/sub"] then
      Ok {| st_mode := S_IFDIR + o755 |}
    else if String.eqb p "run.sh" then Ok {| st_mode := S_IFREG + o755 |}
    else if existsb (String.eqb p) ["docs/a.md"; "docs/sub/b.md"; "README.md"]
    then Ok {| st_mode := S_IFREG + o644 |}
    else Throw (Error "ENOENT: no such file or directory")
|}.

Definition readdirSync (dir : string) : Result (list string) :=
  if String.eqb dir "docs" then Ok ["a.md"; "sub"]
  else if String.eqb dir "docs/sub" then Ok ["b.md"]
  else Throw (Error "ENOTDIR: not a directory").

Definition path_join (dir entry : string) : string :=
  (dir ++ "/" ++ entry)%string.

Definition context_repo : Result (string * string) :=
  Ok ("test-owner", "test-repo").

Definition context_ref : option string := Some "refs/heads/main".

Definition LF : string := String "010" "".

(** One staged change, one change of the working tree only, one
    untracked file. *)
Definition gitStatus : string :=
  ("M  README.md" ++ LF ++ " M docs/a.md" ++ LF ++ "?? new.txt" ++ LF)%string.

Definition execSync (command : string) : Result string := Ok gitStatus.

(** A file that cannot be read, and a file whose permissions cannot be
    read. *)
Definition fs_unreadable : FileSystem := {|
  existsSync := fun _ => true;
  readFileSync := fun _ => Throw (Error "EACCES: permission denied");
  statSync := fun _ => Ok {| st_mode := S_IFREG + o644 |}
|}.

Definition fs_no_stat : FileSystem := {|
  existsSync := fun _ => true;
  readFileSync := fun _ => Ok (list_byte_of_string "content");
  statSync := fun _ => Throw (Error "ENOENT: no such file or directory")
|}.

Definition execSync_fails (command : string) : Result string :=
  Throw (Error "Command failed: git status --porcelain").

Definition env_detect : string -> option string :=
  lookup [ ("GITHUB_TOKEN", "test-token");
           ("GITHUB_REPOSITORY", "owner/repo");
           ("GITHUB_REF", "refs/heads/dev") ].

Definition env_action : string -> option string :=
  lookup [ ("GITHUB_TOKEN", "test-token");
           ("GITHUB_REPOSITORY", "owner/repo");
           ("GITHUB_REF", "refs/heads/dev");
           ("COMMIT_MESSAGE", "Test commit");
           ("FILE_PATHS", "docs, README.md,, missing.txt") ].

Definition env_no_token : string -> option string :=
  lookup [ ("GITHUB_REPOSITORY", "owner/repo") ].

Definition env_missing_only : string -> option string :=
  lookup [ ("GH_TOKEN", "test-token");
           ("FILE_PATHS", "missing.txt, gone.md") ].

End MockRunner.

(** ** Properties *)

Example parseInt_111_8 : JS.parseInt "111" 8 = Some o111.
Proof. reflexivity. Qed.

Example base64_content :
  JS.base64 (list_byte_of_string "content") = "Y29udGVudA==".
Proof. reflexivity. Qed.

Example base64_foobar :
  JS.base64 (list_byte_of_string "foobar") = "Zm9vYmFy"
  /\ JS.base64 (list_byte_of_string "fooba") = "Zm9vYmE=".
Proof. split; reflexivity. Qed.

Example mock_end_to_end :
  commitViaAPI Mock.fs Mock.getOctokit
    (Mock.options ["file1.txt"; "file2.txt"] None) 0%nat
  = (Ok {| commitSha := "commit-sha"; treeSha := "new-tree-sha";
           filesCommitted := 2 |},
     7%nat,
     [ GitGetRef "owner" "repo" "heads/dev" (Ok "base-sha");
       GitGetCommit "owner" "repo" "base-sha" (Ok "base-tree-sha");
       FsExistsSync "file1.txt" true;
       FsReadFileSync "file1.txt" (Ok (list_byte_of_string "content"));
       GitCreateBlob "owner" "repo" "Y29udGVudA==" "base64" (Ok "blob-sha");
       FsStatSync "file1.txt" (Ok {| st_mode := o644 |});
       FsExistsSync "file2.txt" true;
       FsReadFileSync "file2.txt" (Ok (list_byte_of_string "content"));
       GitCreateBlob "owner" "repo" "Y29udGVudA==" "base64" (Ok "blob-sha");
       FsStatSync "file2.txt" (Ok {| st_mode := o644 |});
       GitCreateTree "owner" "repo" "base-tree-sha"
         [ {| entry_path := "file1.txt"; entry_mode := "100644";
              entry_type := "blob"; entry_sha := "blob-sha" |};
           {| entry_path := "file2.txt"; entry_mode := "100644";
              entry_type := "blob"; entry_sha := "blob-sha" |} ]
         (Ok "new-tree-sha");
       GitCreateCommit "owner" "repo" "Test commit" "new-tree-sha"
         ["base-sha"] (Ok "commit-sha");
       GitUpdateRef "owner" "repo" "heads/dev" "commit-sha" false (Ok tt) ]).
Proof. vm_compute. reflexivity. Qed.

(** *** Runs of the monad *)

Section Runs.

Context {R : Type}.

Lemma bind_inv {A B} (m : M R A) (k : A -> M R B) s r s' evs :
  bind m k s = (r, s', evs) ->
  (exists x, m s = (Throw x, s', evs) /\ r = Throw x)
  \/ (exists a s1 e1 e2,
        m s = (Ok a, s1, e1) /\ k a s1 = (r, s', e2) /\ evs = e1 ++ e2).
Proof.
  unfold bind. destruct (m s) as [[[a | x] s1] e1].
  - destruct (k a s1) as [[r2 s2] e2] eqn:Hk. intros H.
    injection H as <- <- <-. right. exists a, s1, e1, e2. auto.
  - intros H. injection H as <- <- <-. left. exists x. auto.
Qed.

Lemma bind_Ok_inv {A B} (m : M R A) (k : A -> M R B) s b s' evs :
  bind m k s = (Ok b, s', evs) ->
  exists a s1 e1 e2,
    m s = (Ok a, s1, e1) /\ k a s1 = (Ok b, s', e2) /\ evs = e1 ++ e2.
Proof.
  intros H. apply bind_inv in H as [(x & _ & Hx) | H]; [discriminate | exact H].
Qed.

Lemma bind_Throw {A B} (m : M R A) (k : A -> M R B) s x s' evs :
  m s = (Throw x, s', evs) -> bind m k s = (Throw x, s', evs).
Proof. unfold bind. intros ->. reflexivity. Qed.

Lemma bind_Ok {A B} (m : M R A) (k : A -> M R B) s a s1 e1 :
  m s = (Ok a, s1, e1) ->
  bind m k s = (outcome (k a s1), final (k a s1), e1 ++ events (k a s1)).
Proof.
  unfold bind, outcome, final, events. intros ->.
  destruct (k a s1) as [[r s2] e2]. reflexivity.
Qed.

Lemma emits_ret {A} P (a : A) : emits P (@ret R A a).
Proof. intros s. constructor. Qed.

Lemma emits_throw {A} P x : emits P (@throw R A x).
Proof. intros s. constructor. Qed.

Lemma emits_lift {A} P (r : Result A) : emits P (@lift R A r).
Proof. intros s. constructor. Qed.

Lemma emits_bind {A B} P (m : M R A) (k : A -> M R B) :
  emits P m -> (forall a, emits P (k a)) -> emits P (bind m k).
Proof.
  intros Hm Hk s. specialize (Hm s). unfold bind, events in *.
  destruct (m s) as [[[a | x] s1] e1]; simpl in *; [| exact Hm].
  specialize (Hk a s1). destruct (k a s1) as [[r s2] e2]. simpl in *.
  apply Forall_app. split; assumption.
Qed.

Lemma emits_impl {A} (P Q : Event -> Prop) (m : M R A) :
  (forall e, P e -> Q e) -> emits P m -> emits Q m.
Proof. intros H Hm s. eapply Forall_impl; [exact H | apply Hm]. Qed.

Lemma emits_run {A} P (m : M R A) s r s' evs :
  emits P m -> m s = (r, s', evs) -> Forall P evs.
Proof. intros H E. specialize (H s). rewrite E in H. exact H. Qed.

Lemma emits_fs_existsSync P fs path :
  (forall r, P (FsExistsSync path r)) -> emits P (@fs_existsSync R fs path).
Proof. intros H s. repeat constructor. apply H. Qed.

Lemma emits_fs_readFileSync P fs path :
  (forall r, P (FsReadFileSync path r)) ->
  emits P (@fs_readFileSync R fs path).
Proof. intros H s. repeat constructor. apply H. Qed.

Lemma emits_fs_statSync P fs path :
  (forall r, P (FsStatSync path r)) -> emits P (@fs_statSync R fs path).
Proof. intros H s. repeat constructor. apply H. Qed.

Lemma emits_git_getRef P (octokit : Octokit R) o r ref :
  (forall x, P (GitGetRef o r ref x)) -> emits P (git_getRef octokit o r ref).
Proof.
  intros H s. unfold git_getRef, events.
  destruct (getRef octokit o r ref s). repeat constructor. apply H.
Qed.

Lemma emits_git_getCommit P (octokit : Octokit R) o r sha :
  (forall x, P (GitGetCommit o r sha x)) ->
  emits P (git_getCommit octokit o r sha).
Proof.
  intros H s. unfold git_getCommit, events.
  destruct (getCommit octokit o r sha s). repeat constructor. apply H.
Qed.

Lemma emits_git_createBlob P (octokit : Octokit R) o r c enc :
  (forall x, P (GitCreateBlob o r c enc x)) ->
  emits P (git_createBlob octokit o r c enc).
Proof.
  intros H s. unfold git_createBlob, events.
  destruct (createBlob_ octokit o r c enc s). repeat constructor. apply H.
Qed.

Lemma emits_git_createTree P (octokit : Octokit R) o r base tree :
  (forall x, P (GitCreateTree o r base tree x)) ->
  emits P (git_createTree octokit o r base tree).
Proof.
  intros H s. unfold git_createTree, events.
  destruct (createTree_ octokit o r base tree s). repeat constructor.
  apply H.
Qed.

Lemma emits_git_createCommit P (octokit : Octokit R) o r msg tree parents :
  (forall x, P (GitCreateCommit o r msg tree parents x)) ->
  emits P (git_createCommit octokit o r msg tree parents).
Proof.
  intros H s. unfold git_createCommit, events.
  destruct (createCommit_ octokit o r msg tree parents s).
  repeat constructor. apply H.
Qed.

Lemma emits_git_updateRef P (octokit : Octokit R) o r ref sha force :
  (forall x, P (GitUpdateRef o r ref sha force x)) ->
  emits P (git_updateRef octokit o r ref sha force).
Proof.
  intros H s. unfold git_updateRef, events.
  destruct (updateRef octokit o r ref sha force s). repeat constructor.
  apply H.
Qed.

End Runs.

(** Decomposes [emits P m] along the structure of [m]; what is left is
    [P] at each call [m] can make. *)
Ltac emits_step :=
  first
    [ apply emits_ret
    | apply emits_throw
    | apply emits_lift
    | apply emits_bind; [| intros ?]
    | apply emits_fs_existsSync; intros ?
    | apply emits_fs_readFileSync; intros ?
    | apply emits_fs_statSync; intros ?
    | apply emits_git_getRef; intros ?
    | apply emits_git_getCommit; intros ?
    | apply emits_git_createBlob; intros ?
    | apply emits_git_createTree; intros ?
    | apply emits_git_createCommit; intros ?
    | apply emits_git_updateRef; intros ?
    | match goal with
      | |- emits _ (if ?b then _ else _) => destruct b
      end ].

Ltac emits_all := repeat emits_step.

(** *** The permission mask *)

Lemma ToInt32_testbit m n :
  0 <= n < 32 -> Z.testbit (JS.ToInt32 m) n = Z.testbit m n.
Proof.
  intros Hn.
  rewrite <- (Z.mod_pow2_bits_low (JS.ToInt32 m) 32 n) by lia.
  rewrite <- (Z.mod_pow2_bits_low m 32 n) by lia.
  f_equal. unfold JS.ToInt32.
  rewrite Zminus_mod_idemp_l. f_equal. lia.
Qed.

Lemma bitand_o111 m :
  JS.bitand (Some m) (JS.parseInt "111" 8) = Z.land m o111.
Proof.
  change (JS.parseInt "111" 8) with (Some 73). change o111 with 73.
  unfold JS.bitand, JS.ToInt32_opt.
  assert (E : JS.ToInt32 73 = 73) by reflexivity. rewrite E.
  apply Z.bits_inj'. intros n Hn. rewrite !Z.land_spec.
  destruct (Z.ltb_spec n 32) as [Hlt | Hge].
  - rewrite ToInt32_testbit by lia. reflexivity.
  - assert (F : Z.testbit 73 n = false).
    { apply Z.bits_above_log2; [lia |]. change (Z.log2 73) with 6. lia. }
    rewrite F, !andb_false_r. reflexivity.
Qed.

Lemma file_mode_eq m :
  file_mode m = if Z.land m o111 =? 0 then "100644" else "100755".
Proof.
  unfold file_mode, JS.truthy_int. rewrite bitand_o111.
  destruct (Z.land m o111 =? 0); reflexivity.
Qed.

(** *** [createBlob] *)

Section BlobLemmas.

Context {R : Type} (fs : FileSystem) (octokit : Octokit R).
Variables owner repo : string.

Lemma createBlob_missing path s :
  existsSync fs path = false ->
  createBlob fs octokit owner repo path s
  = (Throw (Error ("File not found: " ++ path)%string), s,
     [FsExistsSync path false]).
Proof.
  intros H. unfold createBlob, bind, fs_existsSync, throw.
  rewrite H. reflexivity.
Qed.

Lemma createBlob_Ok_inv path s b s' evs :
  createBlob fs octokit owner repo path s = (Ok b, s', evs) ->
  exists content sha st,
    existsSync fs path = true
    /\ readFileSync fs path = Ok content
    /\ createBlob_ octokit owner repo (JS.base64 content) "base64" s
       = (Ok sha, s')
    /\ statSync fs path = Ok st
    /\ b = {| blob_sha := sha; blob_mode := file_mode (st_mode st) |}
    /\ evs = [ FsExistsSync path true;
               FsReadFileSync path (Ok content);
               GitCreateBlob owner repo (JS.base64 content) "base64"
                 (Ok sha);
               FsStatSync path (Ok st) ].
Proof.
  unfold createBlob, bind, fs_existsSync, fs_readFileSync, git_createBlob,
    fs_statSync, throw, ret.
  destruct (existsSync fs path) eqn:Ee; simpl; [| discriminate].
  destruct (readFileSync fs path) as [content |] eqn:Er; [| discriminate].
  destruct (createBlob_ octokit owner repo (JS.base64 content) "base64" s)
    as [[sha |] s1] eqn:Ec; [| discriminate].
  destruct (statSync fs path) as [st |] eqn:Es; [| discriminate].
  intros H. injection H as <- <- <-.
  exists content, sha, st. repeat split; auto.
Qed.

(** Whatever its outcome, one run of [createBlob] is one invocation on
    its path. *)
Lemma createBlob_invoked path s :
  createBlob_invoked_paths
    (events (createBlob fs octokit owner repo path s)) = [path].
Proof.
  unfold createBlob, bind, fs_existsSync, fs_readFileSync, git_createBlob,
    fs_statSync, throw, ret, events.
  destruct (existsSync fs path); simpl; [| reflexivity].
  destruct (readFileSync fs path) as [content |]; [| reflexivity].
  destruct (createBlob_ octokit owner repo (JS.base64 content) "base64" s)
    as [[sha |] s1]; [| reflexivity].
  destruct (statSync fs path) as [st |]; reflexivity.
Qed.

Lemma createBlob_emits (P : Event -> Prop) path :
  (forall r, P (FsExistsSync path r)) ->
  (forall r, P (FsReadFileSync path r)) ->
  (forall c r, P (GitCreateBlob owner repo c "base64" r)) ->
  (forall r, P (FsStatSync path r)) ->
  emits P (createBlob fs octokit owner repo path).
Proof.
  intros H1 H2 H3 H4. unfold createBlob. emits_all; auto.
Qed.

(** *** The loop of [createTree] *)

Lemma createTree_loop_emits (P : Event -> Prop) paths acc :
  (forall p r, P (FsExistsSync p r)) ->
  (forall p r, P (FsReadFileSync p r)) ->
  (forall c r, P (GitCreateBlob owner repo c "base64" r)) ->
  (forall p r, P (FsStatSync p r)) ->
  emits P (createTree_loop fs octokit owner repo paths acc).
Proof.
  intros H1 H2 H3 H4. revert acc.
  induction paths as [| p rest IH]; intros acc; simpl.
  - apply emits_ret.
  - apply emits_bind; [apply createBlob_emits; auto |].
    intros b. apply IH.
Qed.

Lemma invoked_paths_app e1 e2 :
  createBlob_invoked_paths (e1 ++ e2)
  = createBlob_invoked_paths e1 ++ createBlob_invoked_paths e2.
Proof. unfold createBlob_invoked_paths. apply flat_map_app. Qed.

Lemma createTree_loop_Ok_inv paths acc s entries s' evs :
  createTree_loop fs octokit owner repo paths acc s = (Ok entries, s', evs) ->
  exists new,
    entries = acc ++ new
    /\ map entry_path new = paths
    /\ Forall (fun e => entry_type e = "blob") new
    /\ createBlob_invoked_paths evs = paths
    /\ List.length (filter is_createBlob evs) = List.length paths.
Proof.
  revert acc s evs.
  induction paths as [| p rest IH]; intros acc s evs; simpl.
  - unfold ret. intros H. injection H as <- <- <-.
    exists []. rewrite app_nil_r. repeat split; constructor.
  - intros H. apply bind_Ok_inv in H as (b & s1 & e1 & e2 & Hb & Hl & ->).
    apply IH in Hl as (new & -> & Hp & Ht & Hi & Hc).
    pose proof (createBlob_invoked p s) as Hinv. rewrite Hb in Hinv.
    apply createBlob_Ok_inv in Hb
        as (content & sha & st & _ & _ & _ & _ & _ & ->).
    eexists (_ :: new). rewrite <- app_assoc. simpl.
    split; [reflexivity |]. split; [f_equal; exact Hp |].
    split; [constructor; [reflexivity | exact Ht] |].
    split; [f_equal; exact Hi | f_equal; exact Hc].
Qed.

End BlobLemmas.

(** *** [commitViaAPI] *)

Section CommitLemmas.

Context {R : Type} (fs : FileSystem).
Variable getOctokit : string -> Result (Octokit R).

Lemma commitViaAPI_stages o :
  commitViaAPI fs getOctokit o
  = if (List.length (filePaths o) =? 0)%nat then
      throw (Error "No files to commit")
    else
      octokit <- lift (getOctokit (token o)) ;;
      base <- resolveBase octokit o ;;
      commitOnBase fs octokit o base.
Proof. reflexivity. Qed.

Lemma commitViaAPI_empty o s :
  filePaths o = [] ->
  commitViaAPI fs getOctokit o s
  = (Throw (Error "No files to commit"), s, []).
Proof. intros H. rewrite commitViaAPI_stages, H. reflexivity. Qed.

Lemma commitViaAPI_no_client o s x :
  getOctokit (token o) = Throw x ->
  filePaths o <> [] ->
  commitViaAPI fs getOctokit o s = (Throw x, s, []).
Proof.
  intros H Hne. rewrite commitViaAPI_stages.
  destruct (filePaths o); [congruence |]. simpl.
  unfold bind, lift. rewrite H. reflexivity.
Qed.

Lemma commitViaAPI_client o s octokit :
  getOctokit (token o) = Ok octokit ->
  filePaths o <> [] ->
  commitViaAPI fs getOctokit o s
  = bind (resolveBase octokit o) (commitOnBase fs octokit o) s.
Proof.
  intros H Hne. rewrite commitViaAPI_stages.
  destruct (filePaths o) eqn:E; [congruence |]. simpl.
  unfold bind at 1. unfold lift. rewrite H.
  destruct (bind _ _ s) as [[r s'] evs]. reflexivity.
Qed.

Lemma truthy_string_true b :
  JS.truthy_string b = true <-> exists v, b = Some v /\ v <> "".
Proof.
  destruct b as [[| c v] |]; simpl; split; intros H;
    try discriminate; try reflexivity;
    try (destruct H as (v' & Hv & Hne); congruence).
  eexists. split; [reflexivity | discriminate].
Qed.

(** **** Resolving the base *)

Lemma resolveBase_Ok_inv (octokit : Octokit R) o s base baseTree s1 rev :
  resolveBase octokit o s = (Ok (base, baseTree), s1, rev) ->
  (JS.truthy_string (baseSha o) = true
   /\ baseSha o = Some base
   /\ getCommit octokit (owner o) (repo o) base s = (Ok baseTree, s1)
   /\ rev = [GitGetCommit (owner o) (repo o) base (Ok baseTree)])
  \/ (JS.truthy_string (baseSha o) = false
      /\ exists s0,
          getRef octokit (owner o) (repo o) ("heads/" ++ branch o)%string s
          = (Ok base, s0)
          /\ getCommit octokit (owner o) (repo o) base s0 = (Ok baseTree, s1)
          /\ rev = [ GitGetRef (owner o) (repo o)
                       ("heads/" ++ branch o)%string (Ok base);
                     GitGetCommit (owner o) (repo o) base (Ok baseTree) ]).
Proof.
  unfold resolveBase.
  destruct (JS.truthy_string (baseSha o)) eqn:Ht.
  - apply truthy_string_true in Ht as (v & Hv & Hne). rewrite Hv. simpl.
    unfold bind, git_getCommit, ret.
    destruct (getCommit octokit (owner o) (repo o) v s) as [[t |] s2] eqn:Eg;
      [| discriminate].
    intros H. injection H as <- <- <- <-. left. auto.
  - unfold getBranchInfo, bind, git_getRef, git_getCommit, ret.
    destruct (getRef octokit (owner o) (repo o) ("heads/" ++ branch o)%string s)
      as [[ref |] s0] eqn:Er; [| discriminate].
    destruct (getCommit octokit (owner o) (repo o) ref s0)
      as [[t |] s2] eqn:Eg; [| discriminate].
    simpl. intros H. injection H as <- <- <- <-.
    right. split; [reflexivity |]. exists s0. auto.
Qed.

Lemma resolveBase_emits (P : Event -> Prop) (octokit : Octokit R) o :
  (forall ref r, P (GitGetRef (owner o) (repo o) ref r)) ->
  (forall sha r, P (GitGetCommit (owner o) (repo o) sha r)) ->
  emits P (resolveBase octokit o).
Proof.
  intros H1 H2. unfold resolveBase, getBranchInfo. emits_all; auto.
Qed.

(** **** Tree, commit and reference *)

Lemma createTree_inv (octokit : Octokit R) owner repo base paths s r s' evs :
  createTree fs octokit owner repo base paths s = (r, s', evs) ->
  (exists x,
      r = Throw x
      /\ createTree_loop fs octokit owner repo paths [] s
         = (Throw x, s', evs))
  \/ (exists entries s1 lev,
        createTree_loop fs octokit owner repo paths [] s
        = (Ok entries, s1, lev)
        /\ createTree_ octokit owner repo base entries s1 = (r, s')
        /\ evs = lev ++ [GitCreateTree owner repo base entries r]).
Proof.
  unfold createTree. intros H.
  apply bind_inv in H as [(x & Hl & ->) | (entries & s1 & lev & e2 & Hl & Hk & ->)].
  - left. exists x. auto.
  - right. exists entries, s1, lev. split; [exact Hl |].
    unfold bind, git_createTree, ret in Hk.
    destruct (createTree_ octokit owner repo base entries s1)
      as [[t | x] s2] eqn:Et; injection Hk as <- <- <-; auto.
Qed.

Lemma commitOnBase_inv (octokit : Octokit R) o base s r s' evs :
  commitOnBase fs octokit o base s = (r, s', evs) ->
  (exists x,
      r = Throw x
      /\ createTree fs octokit (owner o) (repo o) (snd base) (filePaths o) s
         = (Throw x, s', evs))
  \/ (exists newTree s1 e1 e2,
        createTree fs octokit (owner o) (repo o) (snd base) (filePaths o) s
        = (Ok newTree, s1, e1)
        /\ evs = e1 ++ e2
        /\ Forall (after_tree o (fst base) newTree) e2).
Proof.
  unfold commitOnBase. intros H.
  apply bind_inv in H as [(x & Ht & ->) | (t & s1 & e1 & e2 & Ht & Hk & ->)].
  - left. exists x. auto.
  - right. exists t, s1, e1, e2. split; [exact Ht |].
    split; [reflexivity |].
    eapply emits_run; [| exact Hk].
    unfold createCommit, updateBranch. emits_all; simpl; auto.
Qed.

Lemma commitOnBase_Ok_inv (octokit : Octokit R) o base s res s' evs :
  commitOnBase fs octokit o base s = (Ok res, s', evs) ->
  exists entries lev s1 newTree s2 commit s3,
    createTree_loop fs octokit (owner o) (repo o) (filePaths o) [] s
    = (Ok entries, s1, lev)
    /\ createTree_ octokit (owner o) (repo o) (snd base) entries s1
       = (Ok newTree, s2)
    /\ createCommit_ octokit (owner o) (repo o) (message o) newTree
         [fst base] s2 = (Ok commit, s3)
    /\ updateRef octokit (owner o) (repo o) ("heads/" ++ branch o)%string
         commit false s3 = (Ok tt, s')
    /\ evs = lev ++
             [ GitCreateTree (owner o) (repo o) (snd base) entries
                 (Ok newTree);
               GitCreateCommit (owner o) (repo o) (message o) newTree
                 [fst base] (Ok commit);
               GitUpdateRef (owner o) (repo o)
                 ("heads/" ++ branch o)%string commit false (Ok tt) ]
    /\ res = {| commitSha := commit; treeSha := newTree;
                filesCommitted := List.length (filePaths o) |}.
Proof.
  unfold commitOnBase. intros H.
  apply bind_Ok_inv in H as (newTree & s2 & et & e2 & Ht & H & ->).
  apply createTree_inv in Ht
      as [(x & Hx & _) | (entries & s1 & lev & Hl & Hct & ->)];
    [discriminate |].
  apply bind_Ok_inv in H as (commit & s3 & ec & e3 & Hc & H & ->).
  apply bind_Ok_inv in H as (u & s4 & eu & e4 & Hu & H & ->).
  unfold ret in H. injection H as <- <- <-.
  unfold createCommit, bind, git_createCommit, ret in Hc.
  destruct (createCommit_ octokit (owner o) (repo o) (message o) newTree
              [fst base] s2) as [[c |] s3'] eqn:Ec; [| discriminate].
  injection Hc as <- <- <-.
  unfold updateBranch, git_updateRef in Hu.
  destruct (updateRef octokit (owner o) (repo o)
              ("heads/" ++ branch o)%string c false s3')
    as [[[] |] s4'] eqn:Eu; [| discriminate].
  injection Hu as <- <- <-.
  exists entries, lev, s1, newTree, s2, c, s3'.
  rewrite <- app_assoc. simpl. repeat split; auto.
Qed.

Lemma commitOnBase_emits_built_on (octokit : Octokit R) o base :
  emits (built_on (fst base) (snd base)) (commitOnBase fs octokit o base).
Proof.
  unfold commitOnBase, createTree, createCommit, updateBranch.
  apply emits_bind; [apply emits_bind |].
  - apply createTree_loop_emits; simpl; auto.
  - intros entries. emits_all; simpl; auto.
  - intros newTree. emits_all; simpl; auto.
Qed.

(** A run in which the remote [createTree] is called: the base was
    resolved, the loop over the paths went through, and nothing but the
    commit and the reference update can follow. *)
Lemma commitViaAPI_tree_inv o s ow rp bt entries rt :
  In (GitCreateTree ow rp bt entries rt)
     (events (commitViaAPI fs getOctokit o s)) ->
  exists octokit base baseTree s0 rev s1 lev tail newTree,
    getOctokit (token o) = Ok octokit
    /\ resolveBase octokit o s = (Ok (base, baseTree), s0, rev)
    /\ createTree_loop fs octokit (owner o) (repo o) (filePaths o) [] s0
       = (Ok entries, s1, lev)
    /\ ow = owner o /\ rp = repo o /\ bt = baseTree
    /\ events (commitViaAPI fs getOctokit o s)
       = rev ++ lev ++ GitCreateTree ow rp bt entries rt :: tail
    /\ Forall (after_tree o base newTree) tail.
Proof.
  destruct (filePaths o) as [| p0 ps] eqn:Ef.
  { rewrite commitViaAPI_empty by exact Ef. intros []. }
  assert (Hne : filePaths o <> []) by congruence.
  destruct (getOctokit (token o)) as [octokit | x] eqn:Eo.
  2:{ rewrite (commitViaAPI_no_client o s x) by assumption. intros []. }
  rewrite (commitViaAPI_client o s octokit) by assumption.
  destruct (bind (resolveBase octokit o) (commitOnBase fs octokit o) s)
    as [[r s'] evs] eqn:Hrun.
  unfold events. simpl. intros Hin.
  set (P := fun e => is_createTree e = false).
  assert (Hrev : emits P (resolveBase octokit o))
    by (apply resolveBase_emits; reflexivity).
  assert (no_tree : forall l, Forall P l ->
            ~ In (GitCreateTree ow rp bt entries rt) l).
  { intros l Hl Hi. rewrite Forall_forall in Hl. apply Hl in Hi.
    discriminate. }
  apply bind_inv in Hrun
      as [(x & Hr & _) | ([base baseTree] & s0 & rev & e2 & Hr & Hk & ->)].
  { exfalso. eapply no_tree; [| exact Hin]. eapply emits_run; eauto. }
  apply in_app_or in Hin as [Hin | Hin].
  { exfalso. eapply no_tree; [| exact Hin]. eapply emits_run; eauto. }
  assert (Hloop : forall sl rl el,
            createTree_loop fs octokit (owner o) (repo o) (filePaths o) []
              s0 = (rl, sl, el) -> Forall P el).
  { intros sl rl el. apply emits_run.
    apply createTree_loop_emits; reflexivity. }
  assert (Hafter : forall b t l, Forall (after_tree o b t) l -> Forall P l).
  { intros b t l. apply Forall_impl. intros []; simpl; try tauto.
    reflexivity. reflexivity. }
  exists octokit, base, baseTree, s0, rev.
  apply commitOnBase_inv in Hk
      as [(x & -> & Ht) | (newTree & s2 & et & e3 & Ht & -> & Ha)];
    simpl in Ht; rewrite Ef in *;
    apply createTree_inv in Ht
      as [(y & Hy & Hl) | (entries' & s1 & lev & Hl & Hc & ->)].
  - exfalso. eapply no_tree; [| exact Hin]. eapply Hloop; eauto.
  - apply in_app_or in Hin as [Hin | [Hin | []]].
    { exfalso. eapply no_tree; [| exact Hin]. eapply Hloop; eauto. }
    injection Hin as <- <- <- <- <-.
    exists s1, lev, [], "". repeat split; auto.
  - discriminate.
  - rewrite <- app_assoc in Hin. simpl in Hin.
    apply in_app_or in Hin as [Hin | [Hin | Hin]].
    { exfalso. eapply no_tree; [| exact Hin]. eapply Hloop; eauto. }
    2:{ exfalso. eapply no_tree; [| exact Hin]. eapply Hafter; eauto. }
    injection Hin as <- <- <- <- <-.
    exists s1, lev, e3, newTree. rewrite <- app_assoc. simpl.
    repeat split; auto.
Qed.

Lemma commitViaAPI_Ok_inv o s res s' evs :
  commitViaAPI fs getOctokit o s = (Ok res, s', evs) ->
  exists octokit base baseTree s0 rev entries lev newTree commit,
    filePaths o <> []
    /\ getOctokit (token o) = Ok octokit
    /\ resolveBase octokit o s = (Ok (base, baseTree), s0, rev)
    /\ commitOnBase fs octokit o (base, baseTree) s0
       = (Ok res, s',
          lev ++
          [ GitCreateTree (owner o) (repo o) baseTree entries (Ok newTree);
            GitCreateCommit (owner o) (repo o) (message o) newTree [base]
              (Ok commit);
            GitUpdateRef (owner o) (repo o) ("heads/" ++ branch o)%string
              commit false (Ok tt) ])
    /\ (exists s1,
           createTree_loop fs octokit (owner o) (repo o) (filePaths o) [] s0
           = (Ok entries, s1, lev))
    /\ evs = rev ++ lev ++
             [ GitCreateTree (owner o) (repo o) baseTree entries (Ok newTree);
               GitCreateCommit (owner o) (repo o) (message o) newTree [base]
                 (Ok commit);
               GitUpdateRef (owner o) (repo o) ("heads/" ++ branch o)%string
                 commit false (Ok tt) ]
    /\ res = {| commitSha := commit; treeSha := newTree;
                filesCommitted := List.length (filePaths o) |}.
Proof.
  intros H.
  destruct (filePaths o) as [| p0 ps] eqn:Ef.
  { rewrite commitViaAPI_empty in H by exact Ef. discriminate. }
  assert (Hne : filePaths o <> []) by congruence.
  destruct (getOctokit (token o)) as [octokit | x] eqn:Eo.
  2:{ rewrite (commitViaAPI_no_client o s x) in H by assumption.
      discriminate. }
  rewrite (commitViaAPI_client o s octokit) in H by assumption.
  apply bind_Ok_inv in H as ([base baseTree] & s0 & rev & e2 & Hr & Hk & ->).
  pose proof Hk as Hk'.
  apply commitOnBase_Ok_inv in Hk'
      as (entries & lev & s1 & newTree & s2 & commit & s3
          & Hl & _ & _ & _ & -> & ->).
  simpl in *. rewrite Ef in *.
  exists octokit, base, baseTree, s0, rev, entries, lev, newTree, commit.
  repeat split; auto; try congruence. exists s1. exact Hl.
Qed.

(** **** The first calls of a run *)

Lemma commitViaAPI_from_commit o s octokit b :
  filePaths o <> [] ->
  getOctokit (token o) = Ok octokit ->
  baseSha o = Some b ->
  b <> "" ->
  resolved_from_commit o b (events (commitViaAPI fs getOctokit o s)).
Proof.
  intros Hne Ho Hb Hnb. rewrite (commitViaAPI_client o s octokit) by assumption.
  assert (Ht : JS.truthy_string (baseSha o) = true)
    by (apply truthy_string_true; eauto).
  unfold resolved_from_commit, resolveBase. rewrite Ht, Hb. simpl.
  unfold bind at 1. unfold bind at 1. unfold git_getCommit, ret.
  destruct (getCommit octokit (owner o) (repo o) b s) as [[t | x] s0].
  - pose proof (commitOnBase_emits_built_on octokit o (b, t) s0) as Hk.
    destruct (commitOnBase fs octokit o (b, t) s0) as [[r s'] e2].
    exists (Ok t), e2. split; [reflexivity | exact Hk].
  - exists (Throw x), []. split; reflexivity.
Qed.

Lemma commitViaAPI_from_branch o s octokit :
  filePaths o <> [] ->
  getOctokit (token o) = Ok octokit ->
  JS.truthy_string (baseSha o) = false ->
  resolved_from_branch o (events (commitViaAPI fs getOctokit o s)).
Proof.
  intros Hne Ho Ht. rewrite (commitViaAPI_client o s octokit) by assumption.
  unfold resolved_from_branch, resolved_from_commit, resolveBase.
  rewrite Ht. unfold getBranchInfo.
  unfold bind at 1. unfold bind at 1. unfold bind at 1.
  unfold git_getRef.
  destruct (getRef octokit (owner o) (repo o) ("heads/" ++ branch o)%string s)
    as [[tip | x] s0].
  2:{ exists (Throw x), []. split; reflexivity. }
  unfold bind at 1. unfold git_getCommit, ret.
  destruct (getCommit octokit (owner o) (repo o) tip s0) as [[t | x] s1].
  - pose proof (commitOnBase_emits_built_on octokit o (tip, t) s1) as Hk.
    simpl.
    destruct (commitOnBase fs octokit o (tip, t) s1) as [[r s'] e2].
    exists (Ok tip). eexists. split; [reflexivity |].
    exists (Ok t), e2. split; [reflexivity | exact Hk].
  - exists (Ok tip). eexists. split; [reflexivity |].
    exists (Throw x), []. split; reflexivity.
Qed.

(** **** Calls that every run is made of *)

Lemma commitViaAPI_emits (P : Event -> Prop) o :
  (forall p r, P (FsExistsSync p r)) ->
  (forall p r, P (FsReadFileSync p r)) ->
  (forall p r, P (FsStatSync p r)) ->
  (forall ref r, P (GitGetRef (owner o) (repo o) ref r)) ->
  (forall sha r, P (GitGetCommit (owner o) (repo o) sha r)) ->
  (forall c r, P (GitCreateBlob (owner o) (repo o) c "base64" r)) ->
  (forall base entries r,
      P (GitCreateTree (owner o) (repo o) base entries r)) ->
  (forall tree parent r,
      P (GitCreateCommit (owner o) (repo o) (message o) tree [parent] r)) ->
  (forall sha r,
      P (GitUpdateRef (owner o) (repo o) ("heads/" ++ branch o)%string sha
           false r)) ->
  emits P (commitViaAPI fs getOctokit o).
Proof.
  intros H1 H2 H3 H4 H5 H6 H7 H8 H9. rewrite commitViaAPI_stages.
  destruct (List.length (filePaths o) =? 0)%nat; [apply emits_throw |].
  apply emits_bind; [apply emits_lift |]. intros octokit.
  apply emits_bind; [apply resolveBase_emits; auto |]. intros base.
  unfold commitOnBase, createTree, createCommit, updateBranch.
  apply emits_bind; [apply emits_bind |].
  - apply createTree_loop_emits; auto.
  - intros entries. emits_all; auto.
  - intros newTree. emits_all; auto.
Qed.

End CommitLemmas.

(** *** Counting invocations *)

Lemma createBlob_invocations_count p evs :
  createBlob_invocations p evs
  = count_occ string_dec (createBlob_invoked_paths evs) p.
Proof.
  unfold createBlob_invocations, createBlob_invoked_paths.
  induction evs as [| e evs IH]; [reflexivity |].
  destruct e; simpl; try exact IH.
  destruct (String.eqb_spec p path) as [-> | Hne].
  - destruct (string_dec path path); [| congruence]. simpl. f_equal. exact IH.
  - destruct (string_dec path p); [congruence |]. exact IH.
Qed.

Lemma invoked_paths_none evs :
  Forall (fun e => is_existsSync e = false) evs ->
  createBlob_invoked_paths evs = [].
Proof.
  induction 1 as [| e evs He _ IH]; [reflexivity |].
  destruct e; try discriminate; exact IH.
Qed.

Lemma filter_none {A} (f : A -> bool) l :
  Forall (fun x => f x = false) l -> filter f l = [].
Proof.
  induction 1 as [| x l Hx _ IH]; [reflexivity |]. simpl. rewrite Hx. exact IH.
Qed.

(** *** The remote calls of a successful run *)

Section SuccessfulRun.

Context {R : Type} (fs : FileSystem).
Variable getOctokit : string -> Result (Octokit R).

Lemma commitViaAPI_Ok_calls o s res s' evs :
  commitViaAPI fs getOctokit o s = (Ok res, s', evs) ->
  exists base baseTree entries,
    filter is_getCommit evs
    = [GitGetCommit (owner o) (repo o) base (Ok baseTree)]
    /\ filter is_createTree evs
       = [GitCreateTree (owner o) (repo o) baseTree entries
            (Ok (treeSha res))]
    /\ filter is_createCommit evs
       = [GitCreateCommit (owner o) (repo o) (message o) (treeSha res)
            [base] (Ok (commitSha res))]
    /\ filter is_updateRef evs
       = [GitUpdateRef (owner o) (repo o) ("heads/" ++ branch o)%string
            (commitSha res) false (Ok tt)]
    /\ (JS.truthy_string (baseSha o) = true
        /\ baseSha o = Some base /\ filter is_getRef evs = []
        \/ JS.truthy_string (baseSha o) = false
           /\ filter is_getRef evs
              = [GitGetRef (owner o) (repo o) ("heads/" ++ branch o)%string
                   (Ok base)])
    /\ filesCommitted res = List.length (filePaths o).
Proof.
  intros H.
  apply commitViaAPI_Ok_inv in H
      as (octokit & base & baseTree & s0 & rev & entries & lev & newTree
          & commit & _ & _ & Hr & _ & (s1 & Hl) & -> & ->).
  exists base, baseTree, entries. simpl.
  assert (Hlev : Forall (fun e => is_remote e = true -> is_createBlob e = true)
                   lev).
  { eapply emits_run; [| exact Hl].
    apply createTree_loop_emits; intros; simpl; auto; discriminate. }
  assert (Hf : forall f : Event -> bool,
             (forall e, f e = true -> is_remote e = true) ->
             (forall e, f e = true -> is_createBlob e = false) ->
             filter f lev = []).
  { intros f Hrem Hnb. apply filter_none.
    eapply Forall_impl; [| exact Hlev]. intros e He. simpl in He.
    destruct (f e) eqn:E; [| reflexivity].
    specialize (Hnb e E). rewrite (He (Hrem e E)) in Hnb. discriminate. }
  assert (F1 : filter is_getCommit lev = [])
    by (apply Hf; intros []; simpl; congruence).
  assert (F2 : filter is_createTree lev = [])
    by (apply Hf; intros []; simpl; congruence).
  assert (F3 : filter is_createCommit lev = [])
    by (apply Hf; intros []; simpl; congruence).
  assert (F4 : filter is_updateRef lev = [])
    by (apply Hf; intros []; simpl; congruence).
  assert (F5 : filter is_getRef lev = [])
    by (apply Hf; intros []; simpl; congruence).
  rewrite !filter_app, F1, F2, F3, F4, F5. simpl.
  apply resolveBase_Ok_inv in Hr
      as [(Ht & Hb & _ & ->) | (Ht & s00 & _ & _ & ->)]; simpl;
    repeat split; auto.
Qed.

End SuccessfulRun.

(** ** The properties of the specification *)

(** C1 (as the code has it).  In every run of [commitViaAPI] that reaches
    the remote create-tree call, [createBlob] has been invoked once per
    element of [filePaths], in the order of the list (a path listed [n]
    times is uploaded [n] times), and the entries sent to create-tree have
    the paths of [filePaths], in the same order: same length, same set of
    paths, nothing dropped and nothing added.  When [filePaths] has no
    duplicate, neither have the entries, and [createBlob] is invoked
    exactly once per path.  The run makes that one create-tree call only. *)
Theorem C1_blob_per_listed_path :
  forall (R : Type) (fs : FileSystem)
         (getOctokit : string -> Result (Octokit R))
         (o : CommitOptions) (s : R)
         (ow rp bt : string) (entries : list TreeEntry) (rt : Result string),
    In (GitCreateTree ow rp bt entries rt)
       (events (commitViaAPI fs getOctokit o s)) ->
    createBlob_invoked_paths (events (commitViaAPI fs getOctokit o s))
    = filePaths o
    /\ (forall p,
           createBlob_invocations p (events (commitViaAPI fs getOctokit o s))
           = count_occ string_dec (filePaths o) p)
    /\ map entry_path entries = filePaths o
    /\ List.length entries = List.length (filePaths o)
    /\ (forall p, In p (map entry_path entries) <-> In p (filePaths o))
    /\ (NoDup (filePaths o) ->
        NoDup (map entry_path entries)
        /\ forall p,
            In p (filePaths o) ->
            createBlob_invocations p
              (events (commitViaAPI fs getOctokit o s)) = 1%nat)
    /\ filter is_createTree (events (commitViaAPI fs getOctokit o s))
       = [GitCreateTree ow rp bt entries rt].
Proof.
  intros R fs getOctokit o s ow rp bt entries rt Hin.
  apply commitViaAPI_tree_inv in Hin
      as (octokit & base & baseTree & s0 & rev & s1 & lev & tail & newTree
          & _ & Hr & Hl & -> & -> & -> & Hev & Htail).
  rewrite Hev.
  assert (Hrev : Forall (fun e => is_existsSync e = false
                                  /\ is_createTree e = false) rev).
  { eapply emits_run; [| exact Hr]. apply resolveBase_emits; split; reflexivity. }
  assert (Hlev : Forall (fun e => is_createTree e = false) lev).
  { eapply emits_run; [| exact Hl]. apply createTree_loop_emits; reflexivity. }
  assert (Htl : Forall (fun e => is_existsSync e = false
                                 /\ is_createTree e = false) tail).
  { eapply Forall_impl; [| exact Htail]. intros []; simpl; tauto. }
  apply createTree_loop_Ok_inv in Hl as (new & Hnew & Hp & _ & Hi & _).
  simpl in Hnew. subst new.
  assert (Hpaths :
            createBlob_invoked_paths
              (rev ++ lev
                   ++ GitCreateTree (owner o) (repo o) baseTree entries rt
                   :: tail) = filePaths o).
  { rewrite !invoked_paths_app. simpl.
    rewrite (invoked_paths_none rev), (invoked_paths_none tail), Hi.
    - apply app_nil_r.
    - eapply Forall_impl; [| exact Htl]. simpl. tauto.
    - eapply Forall_impl; [| exact Hrev]. simpl. tauto. }
  assert (Hcount : forall p,
             createBlob_invocations p
               (rev ++ lev
                    ++ GitCreateTree (owner o) (repo o) baseTree entries rt
                    :: tail) = count_occ string_dec (filePaths o) p).
  { intros p. rewrite createBlob_invocations_count, Hpaths. reflexivity. }
  split; [exact Hpaths |]. split; [exact Hcount |].
  split; [exact Hp |].
  split; [rewrite <- Hp; symmetry; apply length_map |].
  split; [intros p; rewrite Hp; tauto |].
  split.
  - intros Hnd. split; [rewrite Hp; exact Hnd |].
    intros p Hpin. rewrite Hcount.
    apply NoDup_count_occ'; assumption.
  - rewrite !filter_app. simpl.
    rewrite (filter_none is_createTree rev), (filter_none is_createTree lev),
      (filter_none is_createTree tail); [reflexivity | | exact Hlev |].
    + eapply Forall_impl; [| exact Htl]. simpl. tauto.
    + eapply Forall_impl; [| exact Hrev]. simpl. tauto.
Qed.

(** Witness of C1: the end-to-end scenario of the unit tests. *)
Lemma C1_blob_per_listed_path_witness :
  createBlob_invoked_paths
    (events (commitViaAPI Mock.fs Mock.getOctokit
               (Mock.options ["file1.txt"; "file2.txt"] None) 0%nat))
  = ["file1.txt"; "file2.txt"].
Proof.
  refine (proj1 (C1_blob_per_listed_path nat Mock.fs Mock.getOctokit
                   (Mock.options ["file1.txt"; "file2.txt"] None) 0%nat
                   "owner" "repo" "base-tree-sha"
                   [ {| entry_path := "file1.txt"; entry_mode := "100644";
                        entry_type := "blob"; entry_sha := "blob-sha" |};
                     {| entry_path := "file2.txt"; entry_mode := "100644";
                        entry_type := "blob"; entry_sha := "blob-sha" |} ]
                   (Ok "new-tree-sha") _)).
  vm_compute. do 10 right. left. reflexivity.
Defined.

(** Counterexample to C1 as stated: with a path listed twice, [createBlob]
    is invoked twice for that one distinct path, and the entries sent to
    create-tree hold the path twice. *)
Lemma C1_counterexample_duplicate_path :
  filePaths (Mock.options ["a.txt"; "a.txt"] None) <> []
  /\ In (GitCreateTree "owner" "repo" "base-tree-sha"
           [ {| entry_path := "a.txt"; entry_mode := "100644";
                entry_type := "blob"; entry_sha := "blob-sha" |};
             {| entry_path := "a.txt"; entry_mode := "100644";
                entry_type := "blob"; entry_sha := "blob-sha" |} ]
           (Ok "new-tree-sha"))
        (events (commitViaAPI Mock.fs Mock.getOctokit
                   (Mock.options ["a.txt"; "a.txt"] None) 0%nat))
  /\ createBlob_invocations "a.txt"
       (events (commitViaAPI Mock.fs Mock.getOctokit
                  (Mock.options ["a.txt"; "a.txt"] None) 0%nat)) = 2%nat
  /\ ~ NoDup (map entry_path
                [ {| entry_path := "a.txt"; entry_mode := "100644";
                     entry_type := "blob"; entry_sha := "blob-sha" |};
                  {| entry_path := "a.txt"; entry_mode := "100644";
                     entry_type := "blob"; entry_sha := "blob-sha" |} ]).
Proof.
  split; [discriminate |].
  split; [vm_compute; do 10 right; left; reflexivity |].
  split; [vm_compute; reflexivity |].
  simpl. intros H. inversion H as [| x l Hx _]. apply Hx. left. reflexivity.
Qed.

(** C2.  With an empty [filePaths], [commitViaAPI] throws
    [Error("No files to commit")] at once: the client is not even built,
    no call is recorded, neither to the file system nor to the remote
    service, and the remote service is left in the state it was in. *)
Theorem C2_empty_input :
  forall (R : Type) (fs : FileSystem)
         (getOctokit : string -> Result (Octokit R))
         (o : CommitOptions) (s : R),
    filePaths o = [] ->
    outcome (commitViaAPI fs getOctokit o s)
    = Throw (Error "No files to commit")
    /\ events (commitViaAPI fs getOctokit o s) = []
    /\ remote_calls (events (commitViaAPI fs getOctokit o s)) = []
    /\ final (commitViaAPI fs getOctokit o s) = s.
Proof.
  intros R fs getOctokit o s H.
  rewrite (commitViaAPI_empty fs getOctokit o s H). repeat split.
Qed.

(** Witness of C2: the last unit test. *)
Lemma C2_empty_input_witness :
  filePaths (Mock.options [] None) = []
  /\ outcome (commitViaAPI Mock.fs Mock.getOctokit (Mock.options [] None) 0%nat)
     = Throw (Error "No files to commit").
Proof.
  split; [reflexivity |].
  apply (C2_empty_input nat Mock.fs Mock.getOctokit (Mock.options [] None)
           0%nat).
  reflexivity.
Defined.

(** C3.  On a path that does not exist locally, [createBlob] throws
    [Error("File not found: <path>")] after the one [fs.existsSync] check:
    no remote call is made, the remote service keeps its state, and
    calling it again from the state it left gives the very same run. *)
Theorem C3_missing_file :
  forall (R : Type) (fs : FileSystem) (octokit : Octokit R)
         (owner repo path : string) (s : R),
    existsSync fs path = false ->
    outcome (createBlob fs octokit owner repo path s)
    = Throw (Error ("File not found: " ++ path)%string)
    /\ events (createBlob fs octokit owner repo path s)
       = [FsExistsSync path false]
    /\ remote_calls (events (createBlob fs octokit owner repo path s)) = []
    /\ final (createBlob fs octokit owner repo path s) = s
    /\ createBlob fs octokit owner repo path
         (final (createBlob fs octokit owner repo path s))
       = createBlob fs octokit owner repo path s.
Proof.
  intros R fs octokit owner repo path s H.
  rewrite (createBlob_missing fs octokit owner repo path s H).
  unfold outcome, events, final. simpl.
  rewrite (createBlob_missing fs octokit owner repo path s H).
  repeat split.
Qed.

(** Witness of C3: the unit test on ["nonexistent.txt"]. *)
Lemma C3_missing_file_witness :
  existsSync Mock.fs_missing "nonexistent.txt" = false
  /\ outcome (createBlob Mock.fs_missing Mock.octokit "owner" "repo"
                "nonexistent.txt" 0%nat)
     = Throw (Error "File not found: nonexistent.txt").
Proof.
  split; [reflexivity |].
  apply (C3_missing_file nat Mock.fs_missing Mock.octokit "owner" "repo"
           "nonexistent.txt" 0%nat).
  reflexivity.
Defined.

(** C4 (as the code has it).  Let [filePaths] be non-empty and the client
    be built.  When [baseSha] is supplied and is not the empty string, the
    first call of the run is the commit lookup of exactly that id; if it
    fails the run stops there, otherwise no other lookup follows (the
    branch reference is never looked up), the tree is layered on the tree
    of that commit and the commit is created with [baseSha] as its parent.
    When [baseSha] is absent, or the empty string, the first call is the
    lookup of the branch reference, and the run goes on in the same way
    from the commit the reference names. *)
Theorem C4_base_resolution :
  forall (R : Type) (fs : FileSystem)
         (getOctokit : string -> Result (Octokit R))
         (o : CommitOptions) (s : R) (octokit : Octokit R),
    filePaths o <> [] ->
    getOctokit (token o) = Ok octokit ->
    (forall b,
        baseSha o = Some b -> b <> "" ->
        resolved_from_commit o b (events (commitViaAPI fs getOctokit o s))
        /\ filter is_getRef (events (commitViaAPI fs getOctokit o s)) = []
        /\ exists r,
            filter is_getCommit (events (commitViaAPI fs getOctokit o s))
            = [GitGetCommit (owner o) (repo o) b r])
    /\ (baseSha o = None \/ baseSha o = Some "" ->
        resolved_from_branch o (events (commitViaAPI fs getOctokit o s))).
Proof.
  intros R fs getOctokit o s octokit Hne Ho. split.
  - intros b Hb Hnb.
    pose proof (commitViaAPI_from_commit fs getOctokit o s octokit b
                  Hne Ho Hb Hnb) as H.
    split; [exact H |].
    destruct H as (r & tail & -> & Htail).
    assert (Hnone : forall t, Forall (built_on b t) tail ->
               filter is_getRef tail = [] /\ filter is_getCommit tail = []).
    { intros t Ht. split; apply filter_none;
        (eapply Forall_impl; [| exact Ht]); intros []; simpl;
        try reflexivity; intros []. }
    simpl. destruct r as [t | x].
    + destruct (Hnone t Htail) as [-> ->]. split; [reflexivity |].
      eexists. reflexivity.
    + subst tail. split; [reflexivity |]. eexists. reflexivity.
  - intros Hb. apply (commitViaAPI_from_branch fs getOctokit o s octokit);
      try assumption.
    destruct Hb as [-> | ->]; reflexivity.
Qed.

(** Witness of C4: the unit test with [baseSha: "provided-base-sha"]. *)
Lemma C4_base_resolution_witness :
  filePaths (Mock.options ["file1.txt"] (Some "provided-base-sha")) <> []
  /\ Mock.getOctokit
       (token (Mock.options ["file1.txt"] (Some "provided-base-sha")))
     = Ok Mock.octokit
  /\ filter is_getRef
       (events (commitViaAPI Mock.fs Mock.getOctokit
                  (Mock.options ["file1.txt"] (Some "provided-base-sha"))
                  0%nat)) = [].
Proof.
  split; [discriminate |]. split; [reflexivity |].
  refine (proj1 (proj2 (proj1 (C4_base_resolution nat Mock.fs Mock.getOctokit
                    (Mock.options ["file1.txt"] (Some "provided-base-sha"))
                    0%nat Mock.octokit _ _)
                  "provided-base-sha" _ _))).
  - discriminate.
  - reflexivity.
  - reflexivity.
  - discriminate.
Defined.

(** Counterexample to C4 as stated: [baseSha] is supplied, as the empty
    string, and the run looks the branch reference up; the commit it
    looks up is the one the reference names, not [baseSha]. *)
Lemma C4_counterexample_empty_baseSha :
  baseSha (Mock.options ["file1.txt"] (Some "")) = Some ""
  /\ filter is_getRef
       (events (commitViaAPI Mock.fs Mock.getOctokit
                  (Mock.options ["file1.txt"] (Some "")) 0%nat))
     = [GitGetRef "owner" "repo" "heads/dev" (Ok "base-sha")]
  /\ filter is_getCommit
       (events (commitViaAPI Mock.fs Mock.getOctokit
                  (Mock.options ["file1.txt"] (Some "")) 0%nat))
     = [GitGetCommit "owner" "repo" "base-sha" (Ok "base-tree-sha")].
Proof. repeat split. Qed.

(** C5.  When [createBlob] returns, the mode it returns is computed from
    the [mode] field of the file's [fs.statSync] result and from nothing
    else: it is ["100755"] if and only if a bit of the mask [0o111] is set
    in it, and ["100644"] if and only if none is.  In particular [0o644]
    gives ["100644"] and [0o755] gives ["100755"]. *)
Theorem C5_file_mode :
  forall (R : Type) (fs : FileSystem) (octokit : Octokit R)
         (owner repo path : string) (s s' : R) (b : BlobResult)
         (evs : list Event),
    createBlob fs octokit owner repo path s = (Ok b, s', evs) ->
    (exists st,
        statSync fs path = Ok st
        /\ blob_mode b = file_mode (st_mode st)
        /\ (blob_mode b = "100755" <-> Z.land (st_mode st) o111 <> 0)
        /\ (blob_mode b = "100644" <-> Z.land (st_mode st) o111 = 0))
    /\ (forall m, file_mode m = "100755" <-> Z.land m o111 <> 0)
    /\ (forall m, file_mode m = "100644" <-> Z.land m o111 = 0)
    /\ file_mode o644 = "100644"
    /\ file_mode o755 = "100755".
Proof.
  intros R fs octokit owner repo path s s' b evs H.
  assert (Hx : forall m, file_mode m = "100755" <-> Z.land m o111 <> 0).
  { intros m. rewrite file_mode_eq.
    destruct (Z.eqb_spec (Z.land m o111) 0) as [E | E]; split; intros H0;
      solve [discriminate | congruence | assumption | reflexivity]. }
  assert (Hr : forall m, file_mode m = "100644" <-> Z.land m o111 = 0).
  { intros m. rewrite file_mode_eq.
    destruct (Z.eqb_spec (Z.land m o111) 0) as [E | E]; split; intros H0;
      solve [discriminate | congruence | assumption | reflexivity]. }
  apply createBlob_Ok_inv in H
      as (content & sha & st & _ & _ & _ & Hst & -> & _).
  split.
  - exists st. simpl. split; [exact Hst |]. split; [reflexivity |].
    split; [apply Hx | apply Hr].
  - repeat split; try apply Hx; try apply Hr.
Qed.

(** Witness of C5: an executable file. *)
Lemma C5_file_mode_witness :
  createBlob Mock.fs_exec Mock.octokit "owner" "repo" "run.sh" 0%nat
  = (Ok {| blob_sha := "blob-sha"; blob_mode := "100755" |}, 1%nat,
     [ FsExistsSync "run.sh" true;
       FsReadFileSync "run.sh" (Ok (list_byte_of_string "content"));
       GitCreateBlob "owner" "repo" "Y29udGVudA==" "base64" (Ok "blob-sha");
       FsStatSync "run.sh" (Ok {| st_mode := o755 |}) ])
  /\ file_mode o755 = "100755".
Proof.
  split; [reflexivity |].
  refine (proj2 (proj2 (proj2 (proj2
            (C5_file_mode nat Mock.fs_exec Mock.octokit "owner" "repo"
               "run.sh" 0%nat 1%nat
               {| blob_sha := "blob-sha"; blob_mode := "100755" |}
               _ _))))).
  reflexivity.
Defined.

(** C6.  In a successful run of [commitViaAPI] there is one base commit:
    the run looks up exactly one commit, [base] (the supplied [baseSha],
    or the tip the branch reference names), creates exactly one tree,
    layered on the tree of [base], and exactly one commit, which points at
    that new tree and has [base] as its only parent. *)
Theorem C6_same_base :
  forall (R : Type) (fs : FileSystem)
         (getOctokit : string -> Result (Octokit R))
         (o : CommitOptions) (s s' : R) (res : CommitResult)
         (evs : list Event),
    commitViaAPI fs getOctokit o s = (Ok res, s', evs) ->
    exists base baseTree entries,
      filter is_getCommit evs
      = [GitGetCommit (owner o) (repo o) base (Ok baseTree)]
      /\ filter is_createTree evs
         = [GitCreateTree (owner o) (repo o) baseTree entries
              (Ok (treeSha res))]
      /\ filter is_createCommit evs
         = [GitCreateCommit (owner o) (repo o) (message o) (treeSha res)
              [base] (Ok (commitSha res))]
      /\ (JS.truthy_string (baseSha o) = true
          /\ baseSha o = Some base /\ filter is_getRef evs = []
          \/ JS.truthy_string (baseSha o) = false
             /\ filter is_getRef evs
                = [GitGetRef (owner o) (repo o) ("heads/" ++ branch o)%string
                     (Ok base)]).
Proof.
  intros R fs getOctokit o s s' res evs H.
  apply commitViaAPI_Ok_calls in H
      as (base & baseTree & entries & H1 & H2 & H3 & _ & H5 & _).
  exists base, baseTree, entries. auto.
Qed.

(** Witness of C6: the end-to-end scenario of the unit tests. *)
Lemma C6_same_base_witness :
  exists base baseTree entries,
    filter is_getCommit
      (events (commitViaAPI Mock.fs Mock.getOctokit
                 (Mock.options ["file1.txt"; "file2.txt"] None) 0%nat))
    = [GitGetCommit "owner" "repo" base (Ok baseTree)]
    /\ filter is_createTree
         (events (commitViaAPI Mock.fs Mock.getOctokit
                    (Mock.options ["file1.txt"; "file2.txt"] None) 0%nat))
       = [GitCreateTree "owner" "repo" baseTree entries (Ok "new-tree-sha")]
    /\ filter is_createCommit
         (events (commitViaAPI Mock.fs Mock.getOctokit
                    (Mock.options ["file1.txt"; "file2.txt"] None) 0%nat))
       = [GitCreateCommit "owner" "repo" "Test commit" "new-tree-sha" [base]
            (Ok "commit-sha")].
Proof.
  destruct (C6_same_base nat Mock.fs Mock.getOctokit
              (Mock.options ["file1.txt"; "file2.txt"] None) 0%nat 7%nat
              {| commitSha := "commit-sha"; treeSha := "new-tree-sha";
                 filesCommitted := 2 |}
              (events (commitViaAPI Mock.fs Mock.getOctokit
                         (Mock.options ["file1.txt"; "file2.txt"] None)
                         0%nat))
              eq_refl)
    as (base & baseTree & entries & H1 & H2 & H3 & _).
  exists base, baseTree, entries. auto.
Defined.

(** C7.  [updateBranch] called without its [force] argument sends
    [force: false], and no run of [commitViaAPI], successful or not, makes
    an [updateRef] call with [force: true]: every reference update it
    makes is on [heads/<branch>] with [force: false]. *)
Theorem C7_never_force :
  (forall (R : Type) (octokit : Octokit R)
          (owner repo branch commitSha : string) (s : R),
      events (updateBranch octokit owner repo branch commitSha None s)
      = [GitUpdateRef owner repo ("heads/" ++ branch)%string commitSha false
           (fst (updateRef octokit owner repo ("heads/" ++ branch)%string
                   commitSha false s))])
  /\ (forall (R : Type) (fs : FileSystem)
             (getOctokit : string -> Result (Octokit R))
             (o : CommitOptions) (s : R),
         Forall (fun e => update_force e <> Some true)
           (events (commitViaAPI fs getOctokit o s))
         /\ Forall (fun e =>
                      is_updateRef e = true ->
                      exists sha r,
                        e = GitUpdateRef (owner o) (repo o)
                              ("heads/" ++ branch o)%string sha false r)
              (events (commitViaAPI fs getOctokit o s))).
Proof.
  split.
  - intros R octokit owner repo branch commitSha s.
    unfold updateBranch, git_updateRef, events.
    destruct (updateRef octokit owner repo ("heads/" ++ branch)%string
                commitSha false s). reflexivity.
  - intros R fs getOctokit o s. split.
    + apply (commitViaAPI_emits fs getOctokit
               (fun e => update_force e <> Some true));
        intros; simpl; discriminate.
    + apply (commitViaAPI_emits fs getOctokit
               (fun e => is_updateRef e = true ->
                         exists sha r,
                           e = GitUpdateRef (owner o) (repo o)
                                 ("heads/" ++ branch o)%string sha false r));
        intros; simpl in *; try congruence.
      eexists. eexists. reflexivity.
Qed.

(** C8.  [createCommit] makes one remote call, whose [parents] is the
    singleton [[parentSha]], whatever its arguments; and in every run of
    [commitViaAPI] every create-commit call has exactly one parent. *)
Theorem C8_single_parent :
  (forall (R : Type) (octokit : Octokit R)
          (owner repo treeSha parentSha message : string) (s : R),
      events (createCommit octokit owner repo treeSha parentSha message s)
      = [GitCreateCommit owner repo message treeSha [parentSha]
           (fst (createCommit_ octokit owner repo message treeSha
                   [parentSha] s))])
  /\ (forall (R : Type) (fs : FileSystem)
             (getOctokit : string -> Result (Octokit R))
             (o : CommitOptions) (s : R),
         Forall (fun e =>
                   commit_parents e = None
                   \/ exists parent, commit_parents e = Some [parent])
           (events (commitViaAPI fs getOctokit o s))).
Proof.
  split.
  - intros R octokit owner repo treeSha parentSha message s.
    unfold createCommit, bind, git_createCommit, ret, events.
    destruct (createCommit_ octokit owner repo message treeSha [parentSha] s)
      as [[c | x] s1]; reflexivity.
  - intros R fs getOctokit o s.
    apply (commitViaAPI_emits fs getOctokit
             (fun e => commit_parents e = None
                       \/ exists parent, commit_parents e = Some [parent]));
      intros; simpl; try (left; reflexivity).
    right. eexists. reflexivity.
Qed.

(** C9.  When [commitViaAPI] succeeds, [commitSha] is the id the one
    create-commit call returned, [treeSha] the id the one create-tree call
    returned, and [filesCommitted] the length of [filePaths].  With the
    mocks of the unit tests and [filePaths = ["file1.txt", "file2.txt"]]
    the result is [{commitSha: "commit-sha", treeSha: "new-tree-sha",
    filesCommitted: 2}]. *)
Theorem C9_result :
  (forall (R : Type) (fs : FileSystem)
          (getOctokit : string -> Result (Octokit R))
          (o : CommitOptions) (s s' : R) (res : CommitResult)
          (evs : list Event),
      commitViaAPI fs getOctokit o s = (Ok res, s', evs) ->
      filesCommitted res = List.length (filePaths o)
      /\ exists base baseTree entries,
          filter is_createTree evs
          = [GitCreateTree (owner o) (repo o) baseTree entries
               (Ok (treeSha res))]
          /\ filter is_createCommit evs
             = [GitCreateCommit (owner o) (repo o) (message o) (treeSha res)
                  [base] (Ok (commitSha res))]
          /\ filter is_updateRef evs
             = [GitUpdateRef (owner o) (repo o)
                  ("heads/" ++ branch o)%string (commitSha res) false
                  (Ok tt)])
  /\ outcome (commitViaAPI Mock.fs Mock.getOctokit
                (Mock.options ["file1.txt"; "file2.txt"] None) 0%nat)
     = Ok {| commitSha := "commit-sha"; treeSha := "new-tree-sha";
             filesCommitted := 2 |}.
Proof.
  split; [| reflexivity].
  intros R fs getOctokit o s s' res evs H.
  apply commitViaAPI_Ok_calls in H
      as (base & baseTree & entries & _ & H2 & H3 & H4 & _ & H6).
  split; [exact H6 |]. exists base, baseTree, entries. auto.
Qed.

(** Witness of C9: the unit test with a supplied [baseSha]. *)
Lemma C9_result_witness :
  filesCommitted
    {| commitSha := "commit-sha"; treeSha := "new-tree-sha";
       filesCommitted := 1 |}
  = List.length
      (filePaths (Mock.options ["file1.txt"] (Some "provided-base-sha"))).
Proof.
  refine (proj1 (proj1 C9_result nat Mock.fs Mock.getOctokit
                   (Mock.options ["file1.txt"] (Some "provided-base-sha"))
                   0%nat 5%nat _ _ _)).
  reflexivity.
Defined.

(** C10.  A [baseSha] that is the empty string is treated as an absent
    one: the run is the run without [baseSha], call for call.  With a
    non-empty [filePaths] and a client, its first call is the lookup of
    the branch reference, and the commit that the reference names is the
    one it looks up and builds on. *)
Theorem C10_empty_baseSha_is_absent :
  (forall (R : Type) (fs : FileSystem)
          (getOctokit : string -> Result (Octokit R))
          (o : CommitOptions) (s : R),
      commitViaAPI fs getOctokit (with_baseSha o (Some "")) s
      = commitViaAPI fs getOctokit (with_baseSha o None) s)
  /\ (forall (R : Type) (fs : FileSystem)
             (getOctokit : string -> Result (Octokit R))
             (o : CommitOptions) (s : R) (octokit : Octokit R),
         filePaths o <> [] ->
         getOctokit (token o) = Ok octokit ->
         resolved_from_branch o
           (events (commitViaAPI fs getOctokit (with_baseSha o (Some "")) s))).
Proof.
  split.
  - intros R fs getOctokit o s. reflexivity.
  - intros R fs getOctokit o s octokit Hne Ho.
    exact (commitViaAPI_from_branch fs getOctokit (with_baseSha o (Some "")) s
             octokit Hne Ho eq_refl).
Qed.

(** Witness of C10: the end-to-end scenario with [baseSha: ""]. *)
Lemma C10_empty_baseSha_is_absent_witness :
  filePaths (Mock.options ["file1.txt"; "file2.txt"] None) <> []
  /\ resolved_from_branch (Mock.options ["file1.txt"; "file2.txt"] None)
       (events (commitViaAPI Mock.fs Mock.getOctokit
                  (with_baseSha
                     (Mock.options ["file1.txt"; "file2.txt"] None)
                     (Some "")) 0%nat)).
Proof.
  split; [discriminate |].
  refine (proj2 C10_empty_baseSha_is_absent nat Mock.fs Mock.getOctokit
            (Mock.options ["file1.txt"; "file2.txt"] None) 0%nat
            Mock.octokit _ _).
  - discriminate.
  - reflexivity.
Defined.

(** ** Further properties of [commit.ts] *)

(** *** Runs that stop at the first failure *)

Section FailFast.

Context {R : Type}.

Lemma fail_fast_ret {A} (a : A) : fail_fast (@ret R A a).
Proof. intros s. constructor. Qed.

Lemma fail_fast_bind {A B} (m : M R A) (k : A -> M R B) :
  fail_fast m -> (forall a, fail_fast (k a)) -> fail_fast (bind m k).
Proof.
  intros Hm Hk s. specialize (Hm s).
  unfold stops_at_first_failure, outcome, events, bind in *.
  destruct (m s) as [[[a | x] s1] e1]; simpl in *; [| exact Hm].
  specialize (Hk a s1).
  unfold stops_at_first_failure, outcome, events in Hk.
  destruct (k a s1) as [[[b | y] s2] e2]; simpl in *.
  - apply Forall_app. split; assumption.
  - destruct Hk as (before & failed & -> & Hb & Hf).
    exists (e1 ++ before), failed. rewrite app_assoc.
    split; [reflexivity |]. split; [| exact Hf].
    apply Forall_app. split; assumption.
Qed.

Lemma fail_fast_one {A} (m : M R A) :
  (forall s, exists e,
      events (m s) = [e]
      /\ match outcome (m s) with
         | Ok _ => event_error e = None
         | Throw x => event_error e = Some x
         end) ->
  fail_fast m.
Proof.
  intros H s. destruct (H s) as (e & He & Ho).
  unfold stops_at_first_failure. rewrite He.
  destruct (outcome (m s)).
  - repeat constructor. exact Ho.
  - exists [], e. repeat split; [constructor | exact Ho].
Qed.

Lemma fail_fast_fs_readFileSync fs path :
  fail_fast (@fs_readFileSync R fs path).
Proof.
  apply fail_fast_one. intros s. eexists. split; [reflexivity |].
  unfold fs_readFileSync, outcome. simpl.
  destruct (readFileSync fs path); reflexivity.
Qed.

Lemma fail_fast_fs_statSync fs path : fail_fast (@fs_statSync R fs path).
Proof.
  apply fail_fast_one. intros s. eexists. split; [reflexivity |].
  unfold fs_statSync, outcome. simpl.
  destruct (statSync fs path); reflexivity.
Qed.

Lemma fail_fast_git_getRef (octokit : Octokit R) o r ref :
  fail_fast (git_getRef octokit o r ref).
Proof.
  apply fail_fast_one. intros s. unfold git_getRef, outcome, events.
  destruct (getRef octokit o r ref s) as [[x | x] s1];
    eexists; split; reflexivity.
Qed.

Lemma fail_fast_git_getCommit (octokit : Octokit R) o r sha :
  fail_fast (git_getCommit octokit o r sha).
Proof.
  apply fail_fast_one. intros s. unfold git_getCommit, outcome, events.
  destruct (getCommit octokit o r sha s) as [[x | x] s1];
    eexists; split; reflexivity.
Qed.

Lemma fail_fast_git_createBlob (octokit : Octokit R) o r c enc :
  fail_fast (git_createBlob octokit o r c enc).
Proof.
  apply fail_fast_one. intros s. unfold git_createBlob, outcome, events.
  destruct (createBlob_ octokit o r c enc s) as [[x | x] s1];
    eexists; split; reflexivity.
Qed.

Lemma fail_fast_git_createTree (octokit : Octokit R) o r base tree :
  fail_fast (git_createTree octokit o r base tree).
Proof.
  apply fail_fast_one. intros s. unfold git_createTree, outcome, events.
  destruct (createTree_ octokit o r base tree s) as [[x | x] s1];
    eexists; split; reflexivity.
Qed.

Lemma fail_fast_git_createCommit (octokit : Octokit R) o r msg tree parents :
  fail_fast (git_createCommit octokit o r msg tree parents).
Proof.
  apply fail_fast_one. intros s. unfold git_createCommit, outcome, events.
  destruct (createCommit_ octokit o r msg tree parents s) as [[x | x] s1];
    eexists; split; reflexivity.
Qed.

Lemma fail_fast_git_updateRef (octokit : Octokit R) o r ref sha force :
  fail_fast (git_updateRef octokit o r ref sha force).
Proof.
  apply fail_fast_one. intros s. unfold git_updateRef, outcome, events.
  destruct (updateRef octokit o r ref sha force s) as [[x | x] s1];
    eexists; split; reflexivity.
Qed.

Lemma fail_fast_createBlob fs (octokit : Octokit R) owner repo path :
  fail_fast (createBlob fs octokit owner repo path).
Proof.
  unfold createBlob. intros s.
  unfold bind at 1. unfold fs_existsSync.
  destruct (existsSync fs path) eqn:Ee; simpl.
  - pose proof
      (fail_fast_bind (fs_readFileSync fs path)
         (fun content =>
            blob <- git_createBlob octokit owner repo (JS.base64 content)
                      "base64" ;;
            stats <- fs_statSync fs path ;;
            ret {| blob_sha := blob;
                   blob_mode := file_mode (st_mode stats) |})) as H.
    specialize (H (fail_fast_fs_readFileSync fs path)).
    assert (Hk : forall content,
               fail_fast
                 (blob <- git_createBlob octokit owner repo
                            (JS.base64 content) "base64" ;;
                  stats <- fs_statSync fs path ;;
                  ret {| blob_sha := blob;
                         blob_mode := file_mode (st_mode stats) |})).
    { intros content. apply fail_fast_bind;
        [apply fail_fast_git_createBlob |]. intros blob.
      apply fail_fast_bind; [apply fail_fast_fs_statSync |]. intros stats.
      apply fail_fast_ret. }
    specialize (H Hk s). unfold stops_at_first_failure, outcome, events in *.
    destruct (bind _ _ s) as [[[b | x] s1] e1]; simpl in *.
    + constructor; [reflexivity | exact H].
    + destruct H as (before & failed & -> & Hb & Hf).
      exists (FsExistsSync path true :: before), failed.
      split; [reflexivity |]. split; [| exact Hf].
      constructor; [reflexivity | exact Hb].
  - unfold stops_at_first_failure, outcome, events. simpl.
    exists [], (FsExistsSync path false). repeat split. constructor.
Qed.

Lemma fail_fast_createTree_loop fs (octokit : Octokit R) owner repo paths acc :
  fail_fast (createTree_loop fs octokit owner repo paths acc).
Proof.
  revert acc. induction paths as [| p rest IH]; intros acc; simpl.
  - apply fail_fast_ret.
  - apply fail_fast_bind; [apply fail_fast_createBlob |].
    intros b. apply IH.
Qed.

Lemma fail_fast_resolveBase (octokit : Octokit R) o :
  fail_fast (resolveBase octokit o).
Proof.
  unfold resolveBase, getBranchInfo.
  destruct (JS.truthy_string (baseSha o));
    repeat first
      [ apply fail_fast_ret
      | apply fail_fast_git_getRef
      | apply fail_fast_git_getCommit
      | apply fail_fast_bind; [| intros ?] ].
Qed.

Lemma fail_fast_commitOnBase fs (octokit : Octokit R) o base :
  fail_fast (commitOnBase fs octokit o base).
Proof.
  unfold commitOnBase, createTree, createCommit, updateBranch.
  repeat first
    [ apply fail_fast_ret
    | apply fail_fast_createTree_loop
    | apply fail_fast_git_createTree
    | apply fail_fast_git_createCommit
    | apply fail_fast_git_updateRef
    | apply fail_fast_bind; [| intros ?] ].
Qed.

End FailFast.

(** *** The helpers, one by one *)

(** X1.  [getBranchInfo] looks the reference [heads/<branch>] up first.  If
    that fails, the failure is the outcome and no commit is looked up;
    otherwise the commit the reference names is looked up, and on success
    the result holds that commit and its tree. *)
Theorem getBranchInfo_runs :
  forall (R : Type) (octokit : Octokit R) (owner repo branch : string)
         (s s1 : R) (r : Result string),
    getRef octokit owner repo ("heads/" ++ branch)%string s = (r, s1) ->
    match r with
    | Throw x =>
        getBranchInfo octokit owner repo branch s
        = (Throw x, s1,
           [GitGetRef owner repo ("heads/" ++ branch)%string (Throw x)])
    | Ok tip =>
        getBranchInfo octokit owner repo branch s
        = (match fst (getCommit octokit owner repo tip s1) with
           | Ok tree => Ok {| info_sha := tip; info_treeSha := tree |}
           | Throw x => Throw x
           end,
           snd (getCommit octokit owner repo tip s1),
           [ GitGetRef owner repo ("heads/" ++ branch)%string (Ok tip);
             GitGetCommit owner repo tip
               (fst (getCommit octokit owner repo tip s1)) ])
    end.
Proof.
  intros R octokit owner repo branch s s1 r Hr.
  unfold getBranchInfo, bind, git_getRef, git_getCommit, ret. rewrite Hr.
  destruct r as [tip | x]; [| reflexivity].
  destruct (getCommit octokit owner repo tip s1) as [[tree | x] s2];
    reflexivity.
Qed.

Lemma getBranchInfo_runs_witness :
  getBranchInfo Mock.octokit "owner" "repo" "dev" 0%nat
  = (Ok {| info_sha := "base-sha"; info_treeSha := "base-tree-sha" |}, 2%nat,
     [ GitGetRef "owner" "repo" "heads/dev" (Ok "base-sha");
       GitGetCommit "owner" "repo" "base-sha" (Ok "base-tree-sha") ]).
Proof.
  exact (getBranchInfo_runs nat Mock.octokit "owner" "repo" "dev" 0%nat 1%nat
           (Ok "base-sha") eq_refl).
Defined.

(** X2.  When the file exists but cannot be read, [createBlob] throws what
    [fs.readFileSync] threw, and the remote service is not called. *)
Theorem createBlob_read_failure :
  forall (R : Type) (fs : FileSystem) (octokit : Octokit R)
         (owner repo path : string) (s : R) (x : Exn),
    existsSync fs path = true ->
    readFileSync fs path = Throw x ->
    createBlob fs octokit owner repo path s
    = (Throw x, s, [FsExistsSync path true; FsReadFileSync path (Throw x)]).
Proof.
  intros R fs octokit owner repo path s x He Hr.
  unfold createBlob, bind, fs_existsSync, fs_readFileSync.
  rewrite He, Hr. reflexivity.
Qed.

(** X3.  The permissions are read after the upload: when [fs.statSync] throws,
    [createBlob] throws the same exception although the blob has been
    created, and the remote service stays in the state the upload left. *)
Theorem createBlob_stat_failure_after_upload :
  forall (R : Type) (fs : FileSystem) (octokit : Octokit R)
         (owner repo path : string) (s s1 : R) (content : list byte)
         (sha : string) (x : Exn),
    existsSync fs path = true ->
    readFileSync fs path = Ok content ->
    createBlob_ octokit owner repo (JS.base64 content) "base64" s
    = (Ok sha, s1) ->
    statSync fs path = Throw x ->
    createBlob fs octokit owner repo path s
    = (Throw x, s1,
       [ FsExistsSync path true;
         FsReadFileSync path (Ok content);
         GitCreateBlob owner repo (JS.base64 content) "base64" (Ok sha);
         FsStatSync path (Throw x) ]).
Proof.
  intros R fs octokit owner repo path s s1 content sha x He Hr Hb Hs.
  unfold createBlob, bind, fs_existsSync, fs_readFileSync, git_createBlob,
    fs_statSync.
  rewrite He, Hr. simpl. rewrite Hb, Hs. reflexivity.
Qed.

Lemma bind_assoc {R A B C} (m : M R A) (k : A -> M R B) (h : B -> M R C) s :
  bind (bind m k) h s = bind m (fun a => bind (k a) h) s.
Proof.
  unfold bind. destruct (m s) as [[[a | x] s1] e1]; [| reflexivity].
  destruct (k a s1) as [[[b | x] s2] e2]; [| reflexivity].
  destruct (h b s2) as [[r s3] e3]. rewrite app_assoc. reflexivity.
Qed.

Lemma bind_ext {R A B} (m : M R A) (k k' : A -> M R B) s :
  (forall a s1, k a s1 = k' a s1) -> bind m k s = bind m k' s.
Proof.
  intros H. unfold bind. destruct (m s) as [[[a | x] s1] e1]; [| reflexivity].
  rewrite H. reflexivity.
Qed.

Lemma bind_ret_l {R A B} (a : A) (k : A -> M R B) s :
  bind (ret a) k s = k a s.
Proof.
  unfold bind, ret. destruct (k a s) as [[r s1] e]. reflexivity.
Qed.

Lemma createTree_loop_app {R} fs (octokit : Octokit R) owner repo
  pre rest acc s :
  createTree_loop fs octokit owner repo (pre ++ rest) acc s
  = bind (createTree_loop fs octokit owner repo pre acc)
         (createTree_loop fs octokit owner repo rest) s.
Proof.
  revert acc s. induction pre as [| p pre IH]; intros acc s; simpl.
  - rewrite bind_ret_l. reflexivity.
  - rewrite bind_assoc. apply bind_ext. intros b s1. apply IH.
Qed.

(** X4.  [createTree] stops at the first path that does not exist: the files
    listed before it have been uploaded, the files listed after it are
    not touched, and the remote create-tree call is not made. *)
Theorem createTree_missing_file_stops :
  forall (R : Type) (fs : FileSystem) (octokit : Octokit R)
         (owner repo baseTreeSha : string)
         (before after : list string) (path : string)
         (s s1 : R) (entries : list TreeEntry) (evs : list Event),
    createTree_loop fs octokit owner repo before [] s = (Ok entries, s1, evs) ->
    existsSync fs path = false ->
    createTree fs octokit owner repo baseTreeSha (before ++ path :: after) s
    = (Throw (Error ("File not found: " ++ path)%string), s1,
       evs ++ [FsExistsSync path false])
    /\ createBlob_invoked_paths (evs ++ [FsExistsSync path false])
       = before ++ [path]
    /\ List.length (filter is_createBlob (evs ++ [FsExistsSync path false]))
       = List.length before
    /\ filter is_createTree (evs ++ [FsExistsSync path false]) = [].
Proof.
  intros R fs octokit owner repo baseTreeSha before after path s s1 entries
    evs Hl He.
  split.
  - unfold createTree. apply bind_Throw.
    rewrite createTree_loop_app. unfold bind. rewrite Hl. simpl.
    unfold bind.
    rewrite (createBlob_missing fs octokit owner repo path s1 He).
    reflexivity.
  - assert (Hnt : Forall (fun e => is_createTree e = false) evs).
    { eapply emits_run; [| exact Hl].
      apply createTree_loop_emits; reflexivity. }
    apply createTree_loop_Ok_inv in Hl as (new & _ & _ & _ & Hi & Hc).
    rewrite invoked_paths_app, !filter_app, Hi, length_app, Hc. simpl.
    rewrite (filter_none is_createTree evs Hnt).
    repeat split. apply Nat.add_0_r.
Qed.

Lemma createTree_missing_file_stops_witness :
  createTree Mock.fs_missing Mock.octokit "owner" "repo" "base-tree-sha"
    (["file1.txt"] ++ "nonexistent.txt" :: ["file2.txt"]) 0%nat
  = (Throw (Error "File not found: nonexistent.txt"), 1%nat,
     [ FsExistsSync "file1.txt" true;
       FsReadFileSync "file1.txt" (Ok (list_byte_of_string "content"));
       GitCreateBlob "owner" "repo" "Y29udGVudA==" "base64" (Ok "blob-sha");
       FsStatSync "file1.txt" (Ok {| st_mode := o644 |}) ]
     ++ [FsExistsSync "nonexistent.txt" false]).
Proof.
  refine (proj1 (createTree_missing_file_stops nat Mock.fs_missing
                   Mock.octokit "owner" "repo" "base-tree-sha"
                   ["file1.txt"] ["file2.txt"] "nonexistent.txt"
                   0%nat 1%nat _ _ _ _)).
  - reflexivity.
  - reflexivity.
Defined.

(** *** Whole runs of [commitViaAPI] *)

Lemma commitViaAPI_fail_fast :
  forall (R : Type) (fs : FileSystem)
         (getOctokit : string -> Result (Octokit R))
         (o : CommitOptions) (s : R),
    filePaths o <> [] ->
    match getOctokit (token o) with
    | Ok _ => stops_at_first_failure (commitViaAPI fs getOctokit o s)
    | Throw x => commitViaAPI fs getOctokit o s = (Throw x, s, [])
    end.
Proof.
  intros R fs getOctokit o s Hne.
  destruct (getOctokit (token o)) as [octokit | x] eqn:Ho.
  - rewrite (commitViaAPI_client fs getOctokit o s octokit Ho Hne).
    apply fail_fast_bind; [apply fail_fast_resolveBase |].
    intros base. apply fail_fast_commitOnBase.
  - apply commitViaAPI_no_client; assumption.
Qed.

(** X5.  [commitViaAPI] stops at the first call that fails and throws what
    that call threw.  When the run succeeds, no recorded call has failed
    (every file existed and every request was served).  When it throws
    after the client has been built, the last recorded call is the only
    failed one, and its exception is the outcome; a negative existence
    check stands for [File not found].  When the client cannot be built,
    the run throws what [getOctokit] threw and records nothing. *)
Theorem commitViaAPI_stops_at_first_failure :
  forall (R : Type) (fs : FileSystem)
         (getOctokit : string -> Result (Octokit R))
         (o : CommitOptions) (s : R),
    filePaths o <> [] ->
    match getOctokit (token o) with
    | Ok _ => stops_at_first_failure (commitViaAPI fs getOctokit o s)
    | Throw x => commitViaAPI fs getOctokit o s = (Throw x, s, [])
    end.
Proof. exact commitViaAPI_fail_fast. Qed.

Lemma commitViaAPI_stops_at_first_failure_witness :
  stops_at_first_failure
    (commitViaAPI Mock.fs_missing Mock.getOctokit
       (Mock.options ["file1.txt"; "nonexistent.txt"] None) 0%nat).
Proof.
  refine (commitViaAPI_stops_at_first_failure nat Mock.fs_missing
            Mock.getOctokit
            (Mock.options ["file1.txt"; "nonexistent.txt"] None) 0%nat _).
  discriminate.
Defined.

Section WholeRuns.

Context {R : Type} (fs : FileSystem).
Variable getOctokit : string -> Result (Octokit R).

Lemma createTree_emits (P : Event -> Prop) (octokit : Octokit R)
  owner repo base paths :
  (forall p r, P (FsExistsSync p r)) ->
  (forall p r, P (FsReadFileSync p r)) ->
  (forall c r, P (GitCreateBlob owner repo c "base64" r)) ->
  (forall p r, P (FsStatSync p r)) ->
  (forall entries r, P (GitCreateTree owner repo base entries r)) ->
  emits P (createTree fs octokit owner repo base paths).
Proof.
  intros H1 H2 H3 H4 H5. unfold createTree.
  apply emits_bind; [apply createTree_loop_emits; auto |].
  intros entries. emits_all; auto.
Qed.

(** The run of the steps that follow the resolution of the base, by the
    outcome of each. *)
Lemma commitOnBase_run (octokit : Octokit R) o base s r s' evs :
  commitOnBase fs octokit o base s = (r, s', evs) ->
  exists rt st et,
    createTree fs octokit (owner o) (repo o) (snd base) (filePaths o) s
    = (rt, st, et)
    /\ match rt with
       | Throw x => r = Throw x /\ s' = st /\ evs = et
       | Ok newTree =>
           exists rc sc,
             createCommit_ octokit (owner o) (repo o) (message o) newTree
               [fst base] st = (rc, sc)
             /\ match rc with
                | Throw x =>
                    r = Throw x /\ s' = sc
                    /\ evs = et ++
                             [GitCreateCommit (owner o) (repo o) (message o)
                                newTree [fst base] (Throw x)]
                | Ok commit =>
                    exists ru,
                      updateRef octokit (owner o) (repo o)
                        ("heads/" ++ branch o)%string commit false sc
                      = (ru, s')
                      /\ evs = et ++
                               [ GitCreateCommit (owner o) (repo o)
                                   (message o) newTree [fst base] (Ok commit);
                                 GitUpdateRef (owner o) (repo o)
                                   ("heads/" ++ branch o)%string commit
                                   false ru ]
                      /\ r = match ru with
                             | Ok _ =>
                                 Ok {| commitSha := commit;
                                       treeSha := newTree;
                                       filesCommitted :=
                                         List.length (filePaths o) |}
                             | Throw x => Throw x
                             end
                end
       end.
Proof.
  unfold commitOnBase. unfold bind at 1.
  destruct (createTree fs octokit (owner o) (repo o) (snd base)
              (filePaths o) s) as [[[newTree | x] st] et].
  2:{ intros H. injection H as <- <- <-. exists (Throw x), st, et. auto. }
  unfold createCommit, updateBranch, bind, git_createCommit, git_updateRef,
    ret.
  destruct (createCommit_ octokit (owner o) (repo o) (message o) newTree
              [fst base] st) as [[commit | x] sc] eqn:Ec.
  2:{ intros H. injection H as <- <- <-. exists (Ok newTree), st, et.
      split; [reflexivity |]. exists (Throw x), sc. auto. }
  destruct (updateRef octokit (owner o) (repo o)
              ("heads/" ++ branch o)%string commit false sc)
    as [[u | x] su] eqn:Eu;
    intros H; injection H as <- <- <-;
    exists (Ok newTree), st, et; (split; [reflexivity |]);
    exists (Ok commit), sc; (split; [exact Ec |]); eexists;
    (split; [exact Eu |]); split; reflexivity.
Qed.

End WholeRuns.

Lemma commitViaAPI_updateRef_inv :
  forall (R : Type) (fs : FileSystem)
         (getOctokit : string -> Result (Octokit R))
         (o : CommitOptions) (s : R)
         (ow rp ref sha : string) (force : bool) (ru : Result unit),
    In (GitUpdateRef ow rp ref sha force ru)
       (events (commitViaAPI fs getOctokit o s)) ->
    exists before tree base,
      events (commitViaAPI fs getOctokit o s)
      = before ++
        [GitUpdateRef (owner o) (repo o) ("heads/" ++ branch o)%string sha
           false ru]
      /\ ow = owner o /\ rp = repo o /\ ref = ("heads/" ++ branch o)%string
      /\ force = false
      /\ Forall (fun e => event_error e = None /\ is_updateRef e = false)
           before
      /\ In (GitCreateCommit (owner o) (repo o) (message o) tree [base]
               (Ok sha)) before
      /\ outcome (commitViaAPI fs getOctokit o s)
         = match ru with
           | Ok _ => Ok {| commitSha := sha; treeSha := tree;
                           filesCommitted := List.length (filePaths o) |}
           | Throw x => Throw x
           end.
Proof.
  intros R fs getOctokit o s ow rp ref sha force ru.
  destruct (filePaths o) as [| p0 ps] eqn:Ef.
  { rewrite commitViaAPI_empty by exact Ef. intros []. }
  assert (Hne : filePaths o <> []) by congruence.
  destruct (getOctokit (token o)) as [octokit | x] eqn:Eo.
  2:{ rewrite (commitViaAPI_no_client fs getOctokit o s x) by assumption.
      intros []. }
  pose proof (commitViaAPI_fail_fast R fs getOctokit o s Hne)
    as Hff.
  rewrite Eo in Hff.
  rewrite (commitViaAPI_client fs getOctokit o s octokit) in * by assumption.
  destruct (bind (resolveBase octokit o) (commitOnBase fs octokit o) s)
    as [[r s'] evs] eqn:Hrun.
  unfold events, outcome in *. simpl in *. intros Hin.
  set (P := fun e => is_updateRef e = false).
  assert (no_update : forall l, Forall P l ->
             ~ In (GitUpdateRef ow rp ref sha force ru) l).
  { intros l Hl Hi. rewrite Forall_forall in Hl. apply Hl in Hi.
    discriminate. }
  assert (Hrev : emits P (resolveBase octokit o))
    by (apply resolveBase_emits; reflexivity).
  apply bind_inv in Hrun
      as [(x & Hr & _) | ([base baseTree] & s0 & rev & e2 & Hr & Hk & ->)].
  { exfalso. eapply no_update; [| exact Hin]. eapply emits_run; eauto. }
  assert (Prev : Forall P rev) by (eapply emits_run; eauto).
  apply in_app_or in Hin as [Hin | Hin];
    [exfalso; eapply no_update; eauto |].
  apply commitOnBase_run in Hk as (rt & st & et & Ht & Hk).
  assert (Pet : Forall P et).
  { eapply emits_run; [| exact Ht]. apply createTree_emits; reflexivity. }
  simpl in Ht. destruct rt as [newTree | x].
  2:{ destruct Hk as (_ & _ & ->). exfalso. eapply no_update; eauto. }
  destruct Hk as (rc & sc & Hc & Hk). destruct rc as [commit | x].
  2:{ destruct Hk as (_ & _ & ->).
      apply in_app_or in Hin as [Hin | [Hin | []]];
        [exfalso; eapply no_update; eauto | discriminate]. }
  destruct Hk as (ru' & Hu & -> & ->).
  apply in_app_or in Hin as [Hin | [Hin | [Hin | []]]];
    [exfalso; eapply no_update; eauto | discriminate |].
  injection Hin as <- <- <- <- <- <-.
  cbn [fst snd] in *.
  assert (Hshape : forall (a b : list Event) c u,
             a ++ b ++ [c; u] = (a ++ b ++ [c]) ++ [u]).
  { intros a b c u. rewrite <- !app_assoc. reflexivity. }
  eexists. exists newTree, base.
  split; [apply Hshape |]. repeat (split; [reflexivity |]).
  split; [| split].
  - match goal with
    | |- Forall _ ?l =>
        assert (Hok : Forall (fun e => event_error e = None) l);
        [| assert (Hnu : Forall P l) ]
    end.
    + unfold stops_at_first_failure, outcome, events in Hff.
      cbn [fst snd] in Hff. rewrite Hshape in Hff. destruct ru' as [u | x].
      * apply Forall_app in Hff. apply Hff.
      * destruct Hff as (before & failed & Heq & Hb & _).
        apply app_inj_tail in Heq as [-> _]. exact Hb.
    + apply Forall_app. split; [exact Prev |].
      apply Forall_app. split; [exact Pet |]. repeat constructor.
    + rewrite Forall_forall in *. intros e He. split; auto.
      apply (Hnu e He).
  - apply in_or_app. right. apply in_or_app. right. left. reflexivity.
  - rewrite Ef. destruct ru'; reflexivity.
Qed.

(** X6.  The branch is moved last.  In any run of [commitViaAPI] that calls
    [updateRef], that call is the last call of the run, every call before
    it succeeded, among them the create-commit call that returned the
    commit the branch is moved to, and the run succeeds exactly when the
    update does. *)
Theorem commitViaAPI_updateRef_is_last :
  forall (R : Type) (fs : FileSystem)
         (getOctokit : string -> Result (Octokit R))
         (o : CommitOptions) (s : R)
         (ow rp ref sha : string) (force : bool) (ru : Result unit),
    In (GitUpdateRef ow rp ref sha force ru)
       (events (commitViaAPI fs getOctokit o s)) ->
    exists before tree base,
      events (commitViaAPI fs getOctokit o s)
      = before ++
        [GitUpdateRef (owner o) (repo o) ("heads/" ++ branch o)%string sha
           false ru]
      /\ ow = owner o /\ rp = repo o /\ ref = ("heads/" ++ branch o)%string
      /\ force = false
      /\ Forall (fun e => event_error e = None /\ is_updateRef e = false)
           before
      /\ In (GitCreateCommit (owner o) (repo o) (message o) tree [base]
               (Ok sha)) before
      /\ outcome (commitViaAPI fs getOctokit o s)
         = match ru with
           | Ok _ => Ok {| commitSha := sha; treeSha := tree;
                           filesCommitted := List.length (filePaths o) |}
           | Throw x => Throw x
           end.
Proof. exact commitViaAPI_updateRef_inv. Qed.

Lemma commitViaAPI_updateRef_is_last_witness :
  exists before tree base,
    events (commitViaAPI Mock.fs Mock.getOctokit
              (Mock.options ["file1.txt"] None) 0%nat)
    = before ++
      [GitUpdateRef "owner" "repo" "heads/dev" "commit-sha" false (Ok tt)]
    /\ In (GitCreateCommit "owner" "repo" "Test commit" tree [base]
             (Ok "commit-sha")) before.
Proof.
  destruct (commitViaAPI_updateRef_is_last nat Mock.fs Mock.getOctokit
              (Mock.options ["file1.txt"] None) 0%nat
              "owner" "repo" "heads/dev" "commit-sha" false (Ok tt))
    as (before & tree & base & H1 & _ & _ & _ & _ & _ & H2 & _).
  - vm_compute. do 8 right. left. reflexivity.
  - exists before, tree, base. split; assumption.
Defined.

Lemma flat_map_none {A B} (f : A -> list B) l :
  Forall (fun x => f x = []) l -> flat_map f l = [].
Proof.
  induction 1 as [| x l Hx _ IH]; [reflexivity |]. simpl.
  rewrite Hx, IH. reflexivity.
Qed.

Lemma createTree_loop_Ok_entries {R} fs (octokit : Octokit R) owner repo
  paths acc s entries s' evs :
  createTree_loop fs octokit owner repo paths acc s = (Ok entries, s', evs) ->
  exists new,
    entries = acc ++ new
    /\ map entry_sha new = created_blob_shas evs
    /\ map entry_mode new = stat_modes evs.
Proof.
  revert acc s evs.
  induction paths as [| p rest IH]; intros acc s evs; simpl.
  - unfold ret. intros H. injection H as <- <- <-.
    exists []. rewrite app_nil_r. repeat split.
  - intros H. apply bind_Ok_inv in H as (b & s1 & e1 & e2 & Hb & Hl & ->).
    apply IH in Hl as (new & -> & Hs & Hm).
    apply createBlob_Ok_inv in Hb
        as (content & sha & st & _ & _ & _ & _ & -> & ->).
    eexists (_ :: new). rewrite <- app_assoc. simpl.
    split; [reflexivity |].
    unfold created_blob_shas, stat_modes in *. simpl.
    split; f_equal; assumption.
Qed.



(** X8.  The entries sent to create-tree are built from the uploads: their
    [sha]s are, in order, the identifiers the create-blob calls of the run
    returned, their modes are, in order, the modes computed from the
    permissions read, each is ["100644"] or ["100755"], and every entry has
    type ["blob"]. *)
Theorem commitViaAPI_tree_entries :
  forall (R : Type) (fs : FileSystem)
         (getOctokit : string -> Result (Octokit R))
         (o : CommitOptions) (s : R)
         (ow rp bt : string) (entries : list TreeEntry) (rt : Result string),
    In (GitCreateTree ow rp bt entries rt)
       (events (commitViaAPI fs getOctokit o s)) ->
    map entry_sha entries
    = created_blob_shas (events (commitViaAPI fs getOctokit o s))
    /\ map entry_mode entries
       = stat_modes (events (commitViaAPI fs getOctokit o s))
    /\ Forall (fun e =>
                 entry_type e = "blob"
                 /\ (entry_mode e = "100644" \/ entry_mode e = "100755"))
         entries.
Proof.
  intros R fs getOctokit o s ow rp bt entries rt Hin.
  apply commitViaAPI_tree_inv in Hin
      as (octokit & base & baseTree & s0 & rev & s1 & lev & tail & newTree
          & _ & Hr & Hl & -> & -> & -> & -> & Htail).
  set (quiet := fun e : Event =>
                  match e with
                  | GitCreateBlob _ _ _ _ _ | FsStatSync _ _ => False
                  | _ => True
                  end).
  assert (Hq : forall l, Forall quiet l ->
             created_blob_shas l = [] /\ stat_modes l = []).
  { intros l Hl'. split; apply flat_map_none;
      (eapply Forall_impl; [| exact Hl']); intros []; simpl;
      try reflexivity; intros []. }
  assert (Hrev : Forall quiet rev).
  { eapply emits_run; [| exact Hr]. apply resolveBase_emits; intros; exact I. }
  assert (Htl : Forall quiet tail).
  { eapply Forall_impl; [| exact Htail]. intros []; simpl; tauto. }
  destruct (Hq rev Hrev) as [Hr1 Hr2]. destruct (Hq tail Htl) as [Ht1 Ht2].
  pose proof (createTree_loop_Ok_entries _ _ _ _ _ _ _ _ _ _ Hl)
    as (new & Hnew & Hs & Hm).
  apply createTree_loop_Ok_inv in Hl as (new' & Hnew' & _ & Hty & _ & _).
  simpl in Hnew, Hnew'. subst new' new.
  unfold created_blob_shas, stat_modes in *.
  rewrite !flat_map_app. simpl. rewrite Hr1, Hr2, Ht1, Ht2, !app_nil_r.
  simpl. split; [exact Hs |]. split; [exact Hm |].
  assert (Hmodes : Forall (fun m => m = "100644" \/ m = "100755")
                     (map entry_mode entries)).
  { rewrite Hm. apply Forall_flat_map. apply Forall_forall. intros e _.
    destruct e as [| | ? [st |] | | | | | |]; simpl; try apply Forall_nil.
    apply Forall_cons; [| apply Forall_nil].
    rewrite file_mode_eq. destruct (Z.land (st_mode st) o111 =? 0); auto. }
  rewrite Forall_map in Hmodes. rewrite Forall_forall in *.
  intros e He. split; auto.
Qed.

Lemma commitViaAPI_tree_entries_witness :
  map entry_sha
    [ {| entry_path := "file1.txt"; entry_mode := "100644";
         entry_type := "blob"; entry_sha := "blob-sha" |} ]
  = created_blob_shas
      (events (commitViaAPI Mock.fs Mock.getOctokit
                 (Mock.options ["file1.txt"] None) 0%nat)).
Proof.
  refine (proj1 (commitViaAPI_tree_entries nat Mock.fs Mock.getOctokit
                   (Mock.options ["file1.txt"] None) 0%nat
                   "owner" "repo" "base-tree-sha" _ (Ok "new-tree-sha") _)).
  vm_compute. do 6 right. left. reflexivity.
Defined.

Lemma createBlob_read_failure_witness :
  createBlob MockRunner.fs_unreadable Mock.octokit "owner" "repo" "secret"
    0%nat
  = (Throw (Error "EACCES: permission denied"), 0%nat,
     [ FsExistsSync "secret" true;
       FsReadFileSync "secret" (Throw (Error "EACCES: permission denied")) ]).
Proof.
  apply (createBlob_read_failure nat MockRunner.fs_unreadable Mock.octokit
           "owner" "repo" "secret" 0%nat); reflexivity.
Defined.

Lemma createBlob_stat_failure_after_upload_witness :
  createBlob MockRunner.fs_no_stat Mock.octokit "owner" "repo" "gone.txt"
    0%nat
  = (Throw (Error "ENOENT: no such file or directory"), 1%nat,
     [ FsExistsSync "gone.txt" true;
       FsReadFileSync "gone.txt" (Ok (list_byte_of_string "content"));
       GitCreateBlob "owner" "repo"
         (JS.base64 (list_byte_of_string "content")) "base64"
         (Ok "blob-sha");
       FsStatSync "gone.txt"
         (Throw (Error "ENOENT: no such file or directory")) ]).
Proof.
  apply (createBlob_stat_failure_after_upload nat MockRunner.fs_no_stat
           Mock.octokit "owner" "repo" "gone.txt" 0%nat 1%nat
           (list_byte_of_string "content") "blob-sha"); reflexivity.
Defined.

(** ** Properties of the runner, [commit-runner.ts] *)

(** *** Strings *)




Lemma split_not_nil sep s : JSString.split sep s <> [].
Proof.
  destruct s as [| c s]; simpl; [discriminate |].
  destruct (Ascii.eqb c sep); [discriminate |].
  destruct (JSString.split sep s); discriminate.
Qed.

Lemma split_no_sep sep a :
  ~ In sep (chars a) -> JSString.split sep a = [a].
Proof.
  induction a as [| c a IH]; simpl; intros H; [reflexivity |].
  destruct (Ascii.eqb_spec c sep) as [-> | Hne]; [exfalso; apply H; now left |].
  rewrite IH; [reflexivity |]. intros Hin. apply H. now right.
Qed.

Lemma split_app_sep sep a b :
  ~ In sep (chars a) ->
  JSString.split sep (a ++ String sep b)%string = a :: JSString.split sep b.
Proof.
  induction a as [| c a IH]; simpl; intros H.
  - rewrite Ascii.eqb_refl. reflexivity.
  - destruct (Ascii.eqb_spec c sep) as [-> | Hne];
      [exfalso; apply H; now left |].
    rewrite IH; [reflexivity |]. intros Hin. apply H. now right.
Qed.

Lemma split_pieces_no_sep sep s :
  Forall (fun piece => ~ In sep (chars piece)) (JSString.split sep s).
Proof.
  induction s as [| c s IH]; simpl.
  - repeat constructor. intros [].
  - destruct (Ascii.eqb_spec c sep) as [-> | Hne].
    + constructor; [intros [] | exact IH].
    + destruct (JSString.split sep s) as [| piece pieces];
        [repeat constructor; intros [H | []]; congruence |].
      inversion IH as [| ? ? Hp Hps]; subst. constructor; [| exact Hps].
      intros [H | H]; [congruence | exact (Hp H)].
Qed.

Lemma concat_split sep s :
  String.concat (String sep "") (JSString.split sep s) = s.
Proof.
  induction s as [| c s IH]; [reflexivity |]. simpl.
  destruct (Ascii.eqb_spec c sep) as [-> | Hne].
  - pose proof (split_not_nil sep s) as Hnn.
    destruct (JSString.split sep s) as [| piece pieces] eqn:E;
      [congruence |].
    change (String.concat (String sep "") ("" :: piece :: pieces))
      with (String sep (String.concat (String sep "") (piece :: pieces))).
    rewrite IH. reflexivity.
  - pose proof (split_not_nil sep s) as Hnn.
    destruct (JSString.split sep s) as [| piece pieces] eqn:E;
      [congruence |].
    destruct pieces as [| piece' pieces]; simpl in *; rewrite <- IH;
      reflexivity.
Qed.

Lemma split_concat sep pieces :
  pieces <> [] ->
  Forall (fun piece => ~ In sep (chars piece)) pieces ->
  JSString.split sep (String.concat (String sep "") pieces) = pieces.
Proof.
  induction pieces as [| p1 rest IH]; [congruence |]. intros _ H.
  inversion H as [| ? ? Hp Hrest]; subst.
  destruct rest as [| p2 rest].
  - simpl. apply split_no_sep. exact Hp.
  - change (String.concat (String sep "") (p1 :: p2 :: rest))
      with (p1 ++ String sep "" ++ String.concat (String sep "") (p2 :: rest))%string.
    simpl (String sep "" ++ _)%string.
    rewrite split_app_sep by exact Hp. f_equal.
    apply IH; [discriminate | exact Hrest].
Qed.

Lemma truthy_Some_nonempty v :
  v <> "" -> JS.truthy_string (Some v) = true.
Proof. destruct v; [congruence | reflexivity]. Qed.

Lemma truthy_false_inv b :
  JS.truthy_string b = false -> b = None \/ b = Some "".
Proof. destruct b as [[| c v] |]; simpl; auto; discriminate. Qed.

(** *** Token, repository and branch *)

(** X9.  A non-empty [GITHUB_TOKEN] is the token; otherwise a non-empty
    [GH_TOKEN] is; an empty variable counts as an unset one.  With
    neither, [main] reports the missing token and exits with status 1
    before anything else is read and without a remote call. *)
Theorem main_token_resolution :
  forall (env : string -> option string),
    (forall t, env "GITHUB_TOKEN" = Some t -> t <> "" ->
               main_token env = Ok t)
    /\ (forall t,
           JS.truthy_string (env "GITHUB_TOKEN") = false ->
           env "GH_TOKEN" = Some t -> t <> "" ->
           main_token env = Ok t)
    /\ (JS.truthy_string (env "GITHUB_TOKEN") = false ->
        JS.truthy_string (env "GH_TOKEN") = false ->
        forall (R : Type) fs readdirSync path_join
               (getOctokit : string -> Result (Octokit R))
               context_repo context_ref execSync stack (s : R),
          main fs readdirSync path_join getOctokit env context_repo
            context_ref execSync stack s
          = ([ SetFailed
                 "GITHUB_TOKEN or GH_TOKEN environment variable is required";
               Exit 1 ], s, [])).
Proof.
  intros env. split; [| split].
  - intros t Ht Hne. unfold main_token, JSString.or_else.
    destruct t as [| c t]; [congruence |]. rewrite Ht. reflexivity.
  - intros t Hg Ht Hne. unfold main_token, JSString.or_else.
    destruct t as [| c t]; [congruence |]. rewrite Hg, Ht. reflexivity.
  - intros Hg Hh R fs readdirSync path_join getOctokit context_repo
      context_ref execSync stack s.
    unfold main, main_token, JSString.or_else. rewrite Hg, Hh. reflexivity.
Qed.

Lemma main_token_resolution_witness :
  main MockRunner.fs MockRunner.readdirSync MockRunner.path_join
    Mock.getOctokit MockRunner.env_no_token MockRunner.context_repo
    MockRunner.context_ref MockRunner.execSync 100%nat 0%nat
  = ([ SetFailed "GITHUB_TOKEN or GH_TOKEN environment variable is required";
       Exit 1 ], 0%nat, []).
Proof.
  refine (proj2 (proj2 (main_token_resolution MockRunner.env_no_token))
            _ _ nat _ _ _ _ _ _ _ _ _); reflexivity.
Defined.

Lemma truthy_narrowed b :
  JS.truthy_string b = true -> b = Some (narrowed b) /\ narrowed b <> "".
Proof.
  destruct b as [[| c v] |]; simpl; try discriminate.
  intros _. split; [reflexivity | discriminate].
Qed.

Lemma append_nil_r s : (s ++ "")%string = s.
Proof. induction s as [| c s IH]; simpl; [| rewrite IH]; reflexivity. Qed.

(** X10.  [GITHUB_REPOSITORY], when set, is cut at its slashes: the first two
    pieces are the owner and the repository and have to be non-empty;
    further pieces are ignored.  So [main_repository] succeeds exactly on
    [owner/repo] and [owner/repo/...], and a value without a slash is
    refused with the message [Invalid repository format]. *)
Theorem main_repository_parse :
  forall (env : string -> option string)
         (context_repo : Result (string * string)) (repository : string),
    env "GITHUB_REPOSITORY" = Some repository ->
    repository <> "" ->
    (forall ow rp,
        main_repository env context_repo = Ok (ow, rp) <->
        ow <> "" /\ rp <> ""
        /\ ~ In "/"%char (chars ow) /\ ~ In "/"%char (chars rp)
        /\ exists rest,
            repository = (ow ++ "/" ++ rp ++ rest)%string
            /\ (rest = "" \/ exists more, rest = String "/" more))
    /\ (~ In "/"%char (chars repository) ->
        main_repository env context_repo
        = Throw (Error ("Invalid repository format: " ++ repository
                        ++ ". Expected " ++ dquote ++ "owner/repo"
                        ++ dquote)%string)).
Proof.
  intros env context_repo repository Henv Hne.
  assert (Hrun :
            main_repository env context_repo
            = let parts := JSString.split "/" repository in
              if negb (JS.truthy_string (nth_error parts 0))
                 || negb (JS.truthy_string (nth_error parts 1))
              then
                Throw (Error ("Invalid repository format: " ++ repository
                              ++ ". Expected " ++ dquote ++ "owner/repo"
                              ++ dquote)%string)
              else Ok (narrowed (nth_error parts 0),
                       narrowed (nth_error parts 1))).
  { unfold main_repository. rewrite Henv.
    rewrite (truthy_Some_nonempty repository Hne). reflexivity. }
  rewrite Hrun. clear Hrun. cbv zeta. split.
  - intros ow rp. split.
    + pose proof (split_pieces_no_sep "/" repository) as Hno.
      pose proof (concat_split "/" repository) as Hcat.
      destruct (JSString.split "/" repository) as [| a [| b tl]];
        cbn [nth_error].
      { simpl. intros H. discriminate H. }
      { change (JS.truthy_string None) with false. simpl negb.
        rewrite orb_true_r. intros H. discriminate H. }
      destruct (JS.truthy_string (Some a)) eqn:Ta;
        [| intros H; discriminate H].
      destruct (JS.truthy_string (Some b)) eqn:Tb;
        [| intros H; discriminate H].
      simpl. intros H. injection H as <- <-.
      apply truthy_narrowed in Ta as [_ Ha].
      apply truthy_narrowed in Tb as [_ Hb]. simpl in Ha, Hb.
      inversion Hno as [| ? ? Na Hno']; subst.
      inversion Hno' as [| ? ? Nb _]; subst.
      repeat (split; [assumption |]).
      destruct tl as [| c tl].
      * exists "". split; [| now left]. simpl.
        rewrite append_nil_r. reflexivity.
      * exists (String "/" (String.concat "/" (c :: tl))).
        split; [| right; eexists; reflexivity].
        reflexivity.
    + intros (Ha & Hb & Na & Nb & rest & -> & Hrest).
      assert (Hs : exists tl,
                 JSString.split "/" (ow ++ "/" ++ rp ++ rest)%string
                 = ow :: rp :: tl).
      { change (ow ++ "/" ++ rp ++ rest)%string
          with (ow ++ String "/" (rp ++ rest))%string.
        rewrite split_app_sep by exact Na.
        destruct Hrest as [-> | (more & ->)].
        - rewrite append_nil_r, split_no_sep by exact Nb. now exists [].
        - rewrite split_app_sep by exact Nb. eexists. reflexivity. }
      destruct Hs as (tl & ->). cbn [nth_error].
      rewrite (truthy_Some_nonempty ow Ha), (truthy_Some_nonempty rp Hb).
      reflexivity.
  - intros Hno. rewrite split_no_sep by exact Hno. simpl.
    rewrite orb_true_r. reflexivity.
Qed.

Lemma main_repository_parse_witness :
  main_repository MockRunner.env_action MockRunner.context_repo
  = Ok ("owner", "repo").
Proof.
  apply (proj1 (main_repository_parse MockRunner.env_action
                  MockRunner.context_repo "owner/repo" eq_refl
                  ltac:(discriminate)) "owner" "repo").
  repeat (split; [first [discriminate | simpl; intuition discriminate] |]).
  exists "". split; [reflexivity | now left].
Defined.



(** *** The listed paths *)

Lemma trimStart_chars c s :
  In c (chars (JSString.trimStart s)) -> In c (chars s).
Proof.
  induction s as [| a s IH]; simpl; [auto |].
  destruct (JSString.is_space a); simpl; auto.
Qed.

Lemma trimEnd_chars c s :
  In c (chars (JSString.trimEnd s)) -> In c (chars s).
Proof.
  induction s as [| a s IH]; simpl; [auto |].
  destruct (JSString.trimEnd s) as [| b kept].
  - destruct (JSString.is_space a); simpl; intuition.
  - simpl in *. intuition.
Qed.

Lemma trimStart_head s :
  JSString.trimStart s = ""
  \/ exists c r, JSString.trimStart s = String c r
                 /\ JSString.is_space c = false.
Proof.
  induction s as [| a s IH]; simpl; [now left |].
  destruct (JSString.is_space a) eqn:E; [exact IH |].
  right. exists a, s. auto.
Qed.

Lemma trimEnd_idem s :
  JSString.trimEnd (JSString.trimEnd s) = JSString.trimEnd s.
Proof.
  induction s as [| a s IH]; [reflexivity |]. simpl.
  destruct (JSString.trimEnd s) as [| b kept] eqn:E.
  - destruct (JSString.is_space a) eqn:Ea; simpl; [| rewrite Ea]; reflexivity.
  - simpl. simpl in IH. rewrite IH. reflexivity.
Qed.

Lemma trimEnd_head c r :
  JSString.is_space c = false ->
  exists r', JSString.trimEnd (String c r) = String c r'.
Proof.
  intros H. simpl. destruct (JSString.trimEnd r); [rewrite H |]; eauto.
Qed.

Lemma trim_idem s : JSString.trim (JSString.trim s) = JSString.trim s.
Proof.
  unfold JSString.trim.
  destruct (trimStart_head s) as [-> | (c & r & -> & Hc)]; [reflexivity |].
  destruct (trimEnd_head c r Hc) as (r' & E). rewrite E.
  assert (Hs : JSString.trimStart (String c r') = String c r')
    by (simpl; rewrite Hc; reflexivity).
  rewrite Hs, <- E. apply trimEnd_idem.
Qed.

(** X12.  Every path read from [FILE_PATHS] is non-empty, has no white space at
    either end and holds no comma. *)
Theorem listed_paths_clean :
  forall (FILE_PATHS : string),
    Forall (fun p => p <> "" /\ JSString.trim p = p
                     /\ ~ In ","%char (chars p))
      (listed_paths FILE_PATHS).
Proof.
  intros v. apply Forall_forall. intros p Hp.
  unfold listed_paths in Hp. apply filter_In in Hp as [Hin Hlen].
  apply in_map_iff in Hin as (piece & <- & Hpiece).
  split; [| split].
  - intros E. rewrite E in Hlen. discriminate.
  - apply trim_idem.
  - pose proof (split_pieces_no_sep "," v) as Hno.
    rewrite Forall_forall in Hno. specialize (Hno piece Hpiece).
    intros Hc. apply Hno. unfold JSString.trim in Hc.
    apply trimStart_chars, trimEnd_chars. exact Hc.
Qed.

(** X13.  Reading [FILE_PATHS] undoes the joining of such paths with commas:
    the paths come back as they were, in the same order. *)
Theorem listed_paths_of_join :
  forall (paths : list string),
    Forall (fun p => p <> "" /\ JSString.trim p = p
                     /\ ~ In ","%char (chars p)) paths ->
    listed_paths (String.concat "," paths) = paths.
Proof.
  intros paths H. unfold listed_paths.
  destruct paths as [| p ps]; [reflexivity |].
  rewrite split_concat; [| discriminate |].
  - rewrite (map_ext_in JSString.trim (fun x => x)).
    + rewrite map_id. apply forallb_filter_id. apply forallb_forall.
      intros x Hx. rewrite Forall_forall in H.
      destruct (H x Hx) as (Hne & _). destruct x; [congruence | reflexivity].
    + intros x Hx. rewrite Forall_forall in H. apply (H x Hx).
  - eapply Forall_impl; [| exact H]. simpl. tauto.
Qed.

Lemma listed_paths_of_join_witness :
  listed_paths (String.concat "," ["docs"; "README.md"; "src/my file.ts"])
  = ["docs"; "README.md"; "src/my file.ts"].
Proof.
  apply (listed_paths_of_join ["docs"; "README.md"; "src/my file.ts"]).
  repeat (apply Forall_cons;
          [split; [discriminate |];
           split; [reflexivity | simpl; intuition discriminate] |]).
  apply Forall_nil.
Defined.

(** *** Directories *)

Section Directories.

Variable fs : FileSystem.
Variable readdirSync : string -> Result (list string).
Variable path_join : string -> string -> string.


Lemma findFiles_loop_mono (recur recur' : string -> Result (list string))
  dir entries :
  (forall p l, recur p = Ok l -> recur' p = Ok l) ->
  forall files out,
    findFiles_loop fs path_join recur dir entries files = Ok out ->
    findFiles_loop fs path_join recur' dir entries files = Ok out.
Proof.
  intros Hrec. induction entries as [| entry rest IH]; intros files out;
    simpl; [auto |].
  unfold and_then.
  destruct (statSync fs (path_join dir entry)) as [st | x];
    [| discriminate].
  destruct (isDirectory st).
  - destruct (recur (path_join dir entry)) as [found | x] eqn:Er;
      [| discriminate].
    rewrite (Hrec _ _ Er). apply IH.
  - destruct (isFile st); apply IH.
Qed.

End Directories.




(** X15.  What [findFiles] returns does not depend on the depth of recursion
    that is left, once that depth is enough for it to return. *)
Theorem findFiles_stack_monotone :
  forall (fs : FileSystem) (readdirSync : string -> Result (list string))
         (path_join : string -> string -> string)
         (depth depth' : nat) (dir : string) (files : list string),
    findFiles fs readdirSync path_join depth dir = Ok files ->
    (depth <= depth')%nat ->
    findFiles fs readdirSync path_join depth' dir = Ok files.
Proof.
  intros fs readdirSync path_join depth.
  induction depth as [| depth IH]; intros depth' dir files; simpl;
    [discriminate |].
  intros H Hle. destruct depth' as [| depth']; [lia |]. simpl.
  unfold and_then in *. destruct (readdirSync dir) as [entries | x];
    [| discriminate].
  eapply findFiles_loop_mono; [| exact H].
  intros p l Hp. apply IH; [exact Hp | lia].
Qed.

Lemma findFiles_stack_monotone_witness :
  findFiles MockRunner.fs MockRunner.readdirSync MockRunner.path_join
    50%nat "docs" = Ok ["docs/a.md"; "docs/sub/b.md"].
Proof.
  apply (findFiles_stack_monotone MockRunner.fs MockRunner.readdirSync
           MockRunner.path_join 2%nat 50%nat "docs").
  - vm_compute. reflexivity.
  - lia.
Defined.

Lemma expand_paths_plain_files :
  forall (fs : FileSystem) (readdirSync : string -> Result (list string))
         (path_join : string -> string -> string) (stack : nat)
         (paths filePaths : list string),
    (forall p,
        In p paths -> existsSync fs p = true ->
        exists st, statSync fs p = Ok st /\ isDirectory st = false) ->
    expand_paths fs readdirSync path_join stack paths filePaths
    = Ok (filePaths ++ filter (existsSync fs) paths).
Proof.
  intros fs readdirSync path_join stack paths.
  induction paths as [| p rest IH]; intros filePaths H; simpl.
  - rewrite app_nil_r. reflexivity.
  - destruct (existsSync fs p) eqn:Ee.
    + destruct (H p (or_introl eq_refl) Ee) as (st & Hs & Hd).
      rewrite Hs. simpl. rewrite Hd, IH.
      * rewrite <- app_assoc. reflexivity.
      * intros q Hq. apply H. now right.
    + apply IH. intros q Hq. apply H. now right.
Qed.

(** X16.  Of the listed paths that are not directories, the expansion keeps the
    ones that exist, in the order they are listed, and drops the others
    without a word. *)
Theorem expand_paths_keeps_existing_files :
  forall (fs : FileSystem) (readdirSync : string -> Result (list string))
         (path_join : string -> string -> string) (stack : nat)
         (paths filePaths : list string),
    (forall p,
        In p paths -> existsSync fs p = true ->
        exists st, statSync fs p = Ok st /\ isDirectory st = false) ->
    expand_paths fs readdirSync path_join stack paths filePaths
    = Ok (filePaths ++ filter (existsSync fs) paths).
Proof. exact expand_paths_plain_files. Qed.

Lemma expand_paths_keeps_existing_files_witness :
  expand_paths MockRunner.fs MockRunner.readdirSync MockRunner.path_join
    100%nat ["README.md"; "missing.txt"; "run.sh"] []
  = Ok ([] ++ filter (existsSync MockRunner.fs)
                ["README.md"; "missing.txt"; "run.sh"]).
Proof.
  apply (expand_paths_keeps_existing_files MockRunner.fs
           MockRunner.readdirSync MockRunner.path_join 100%nat
           ["README.md"; "missing.txt"; "run.sh"] []).
  intros p [<- | [<- | [<- | []]]] H;
    try (vm_compute in H; discriminate H);
    eexists; (split; [vm_compute; reflexivity | vm_compute; reflexivity]).
Defined.



(** *** The lines of [git status --porcelain] *)

Lemma match_rest_inv s f :
  JSString.match_rest s = Some f ->
  f = s /\ s <> "" /\ JSString.no_line_terminator s = true.
Proof.
  destruct s as [| c s]; [discriminate |]. unfold JSString.match_rest.
  destruct (JSString.no_line_terminator (String c s)) eqn:E;
    [| discriminate].
  intros H. injection H as <-. repeat split. discriminate.
Qed.

Lemma match_spaces_inv s f :
  JSString.match_spaces s = Some f ->
  exists ws,
    s = (ws ++ f)%string /\ ws <> "" /\ all_space ws
    /\ f <> "" /\ JSString.no_line_terminator f = true.
Proof.
  revert f. induction s as [| c s IH]; intros f; simpl; [discriminate |].
  destruct (JSString.is_space c) eqn:Ec; [| discriminate].
  destruct (JSString.match_spaces s) as [captured |] eqn:Es.
  - intros H. injection H as <-.
    destruct (IH captured eq_refl) as (ws & -> & _ & Hws & Hf & Hl).
    exists (String c ws). repeat split; auto; [discriminate |].
    constructor; assumption.
  - intros H. apply match_rest_inv in H as (-> & Hne & Hl).
    exists (String c ""). repeat split; auto; [discriminate |].
    repeat constructor. exact Ec.
Qed.

Lemma match_status_line_inv :
  forall (line file : string),
    JSString.match_status_line line = Some file ->
    exists c ws,
      (c = "A"%char \/ c = "M"%char)
      /\ line = String c (ws ++ file)
      /\ ws <> "" /\ all_space ws
      /\ file <> "" /\ JSString.no_line_terminator file = true.
Proof.
  intros line file. destruct line as [| c rest]; simpl; [discriminate |].
  assert (Hc : Ascii.eqb c "A" || Ascii.eqb c "M" = true ->
               c = "A"%char \/ c = "M"%char).
  { destruct (Ascii.eqb_spec c "A") as [-> | Ha]; [now left |].
    destruct (Ascii.eqb_spec c "M") as [-> | Hm]; [now right |].
    discriminate. }
  destruct (Ascii.eqb c "A" || Ascii.eqb c "M"); [| discriminate].
  intros H. apply match_spaces_inv in H as (ws & -> & H).
  exists c, ws. split; [apply Hc; reflexivity |]. split; [reflexivity |].
  exact H.
Qed.

(** X18.  A line of the status is taken only if it is [A] or [M], then white
    space, then the file: the first column (the index) has to be [A] or
    [M] and the second column (the working tree) has to be blank.  A file
    that is only modified in the working tree, untracked, deleted or
    renamed is not taken. *)
Theorem match_status_line_sound :
  forall (line file : string),
    JSString.match_status_line line = Some file ->
    exists c ws,
      (c = "A"%char \/ c = "M"%char)
      /\ line = String c (ws ++ file)
      /\ ws <> "" /\ all_space ws
      /\ file <> "" /\ JSString.no_line_terminator file = true.
Proof. exact match_status_line_inv. Qed.

Lemma match_status_line_sound_witness :
  exists c ws,
    (c = "A"%char \/ c = "M"%char)
    /\ "M  README.md" = String c (ws ++ "README.md")
    /\ ws <> "" /\ all_space ws
    /\ "README.md" <> "" /\ JSString.no_line_terminator "README.md" = true.
Proof.
  apply (match_status_line_sound "M  README.md" "README.md"). reflexivity.
Defined.

(** X19.  Conversely, [A] or [M], white space, and a file name that does not
    start with white space and holds no line terminator, is taken, and
    the file name is what is captured. *)
Theorem match_status_line_complete :
  forall (c a : ascii) (ws rest : string),
    c = "A"%char \/ c = "M"%char ->
    ws <> "" -> all_space ws ->
    JSString.is_space a = false ->
    JSString.no_line_terminator (String a rest) = true ->
    JSString.match_status_line (String c (ws ++ String a rest))
    = Some (String a rest).
Proof.
  intros c a ws rest Hc Hne Hws Ha Hl.
  assert (Hsp : JSString.match_spaces (ws ++ String a rest)
                = Some (String a rest)).
  { induction ws as [| w ws IH]; [congruence |].
    inversion Hws as [| ? ? Hw Hws']; subst. simpl. rewrite Hw.
    destruct ws as [| w' ws].
    - cbn [append JSString.match_spaces]. rewrite Ha.
      unfold JSString.match_rest. rewrite Hl. reflexivity.
    - rewrite IH; [reflexivity | discriminate | exact Hws']. }
  unfold JSString.match_status_line.
  destruct Hc as [-> | ->]; simpl; exact Hsp.
Qed.

Lemma match_status_line_complete_witness :
  JSString.match_status_line (String "A" ("  " ++ String "s" "rc/new file.ts"))
  = Some (String "s" "rc/new file.ts").
Proof.
  apply (match_status_line_complete "A" "s" "  " "rc/new file.ts").
  - now left.
  - discriminate.
  - repeat constructor.
  - reflexivity.
  - reflexivity.
Defined.

(** X20.  The files detected from the status all exist locally, and each comes
    from a line of the output made of [A] or [M], white space and the
    file. *)
Theorem changed_files_sound :
  forall (fs : FileSystem) (gitStatus : string),
    Forall (fun file =>
              existsSync fs file = true
              /\ exists c ws,
                  (c = "A"%char \/ c = "M"%char)
                  /\ ws <> "" /\ all_space ws
                  /\ In (String c (ws ++ file))
                       (JSString.split "010" gitStatus))
      (changed_files fs gitStatus).
Proof.
  intros fs gitStatus. apply Forall_forall. intros file Hin.
  unfold changed_files in Hin.
  apply in_flat_map in Hin as (m & Hm & Hfile).
  apply in_map_iff in Hm as (line & Hline & Hl).
  apply filter_In in Hl as [Hl _].
  destruct m as [f |]; [| destruct Hfile].
  destruct (existsSync fs f) eqn:Ee; [| destruct Hfile].
  destruct Hfile as [<- | []]. split; [exact Ee |].
  apply match_status_line_inv in Hline
      as (c & ws & Hc & -> & Hne & Hws & _).
  exists c, ws. auto.
Qed.

(** *** [main] *)

Section Main.

Context {R : Type}.
Variable fs : FileSystem.
Variable readdirSync : string -> Result (list string).
Variable path_join : string -> string -> string.
Variable getOctokit : string -> Result (Octokit R).
Variable env : string -> option string.
Variable context_repo : Result (string * string).
Variable context_ref : option string.
Variable execSync : string -> Result string.
Variable stack : nat.

(** [main] once the token, the repository and the branch are known. *)
Lemma main_prepared token repository branch s :
  main_token env = Ok token ->
  main_repository env context_repo = Ok repository ->
  main_branch env context_ref = Ok branch ->
  main fs readdirSync path_join getOctokit env context_repo context_ref
    execSync stack s
  = match main_filePaths fs readdirSync path_join env execSync stack with
    | Throw error => (main_catch error, s, [])
    | Ok filePaths =>
        if (List.length filePaths =? 0)%nat then
          ([Info "No files to commit"; Exit 0], s, [])
        else
          let infos :=
            [ Info ("Committing " ++ JSString.of_nat (List.length filePaths)
                    ++ " file(s) to branch " ++ branch)%string;
              Info ("Files: " ++ String.concat ", " filePaths)%string ] in
          match
            commitViaAPI fs getOctokit
              {| token := token; owner := fst repository;
                 repo := snd repository; branch := branch;
                 message := main_message env; filePaths := filePaths;
                 baseSha := env "BASE_SHA" |} s
          with
          | (Ok result, s', evs) =>
              (infos ++
               [ Info ("Created signed commit " ++ commitSha result
                       ++ " via GitHub API")%string;
                 SetOutput "commit-sha" (commitSha result);
                 SetOutput "tree-sha" (treeSha result);
                 SetOutput "files-committed"
                   (JSString.of_nat (filesCommitted result)) ],
               s', evs)
          | (Throw error, s', evs) => (infos ++ main_catch error, s', evs)
          end
    end.
Proof.
  intros Ht Hr Hb. unfold main. rewrite Ht, Hr, Hb. simpl and_then.
  destruct (main_filePaths fs readdirSync path_join env execSync stack);
    reflexivity.
Qed.


End Main.


(** X21.  When every path listed in [FILE_PATHS] is missing (or the value holds
    no path at all), and when the status shows no change to take, [main]
    logs [No files to commit] and exits with status 0: [commitViaAPI] is
    not called and the remote service is not touched. *)
Theorem main_nothing_to_commit :
  forall (R : Type) (fs : FileSystem)
         (readdirSync : string -> Result (list string))
         (path_join : string -> string -> string)
         (getOctokit : string -> Result (Octokit R))
         (env : string -> option string)
         (context_repo : Result (string * string))
         (context_ref : option string)
         (execSync : string -> Result string) (stack : nat) (s : R)
         (token branch : string) (repository : string * string),
    main_token env = Ok token ->
    main_repository env context_repo = Ok repository ->
    main_branch env context_ref = Ok branch ->
    (exists v,
        env "FILE_PATHS" = Some v /\ v <> ""
        /\ Forall (fun p => existsSync fs p = false) (listed_paths v))
    \/ (JS.truthy_string (env "FILE_PATHS") = false
        /\ exists out,
            execSync "git status --porcelain" = Ok out
            /\ changed_files fs out = []) ->
    main fs readdirSync path_join getOctokit env context_repo context_ref
      execSync stack s
    = ([Info "No files to commit"; Exit 0], s, []).
Proof.
  intros R fs readdirSync path_join getOctokit env context_repo context_ref
    execSync stack s token branch repository Ht Hr Hb Hfiles.
  rewrite (main_prepared fs readdirSync path_join getOctokit env
             context_repo context_ref execSync stack token repository branch
             s Ht Hr Hb).
  assert (Hf : main_filePaths fs readdirSync path_join env execSync stack
               = Ok []).
  { unfold main_filePaths.
    destruct Hfiles as [(v & Hv & Hne & Hall) | (Hv & out & Hout & Hnone)].
    - rewrite Hv, (truthy_Some_nonempty v Hne). simpl narrowed.
      rewrite expand_paths_plain_files.
      + simpl. f_equal. apply filter_none. exact Hall.
      + intros p Hp He. rewrite Forall_forall in Hall.
        rewrite (Hall p Hp) in He. discriminate.
    - rewrite Hv, Hout, Hnone. reflexivity. }
  rewrite Hf. reflexivity.
Qed.

Lemma main_nothing_to_commit_witness :
  main MockRunner.fs MockRunner.readdirSync MockRunner.path_join
    Mock.getOctokit MockRunner.env_missing_only MockRunner.context_repo
    MockRunner.context_ref MockRunner.execSync 100%nat 0%nat
  = ([Info "No files to commit"; Exit 0], 0%nat, []).
Proof.
  apply (main_nothing_to_commit nat MockRunner.fs MockRunner.readdirSync
           MockRunner.path_join Mock.getOctokit MockRunner.env_missing_only
           MockRunner.context_repo MockRunner.context_ref
           MockRunner.execSync 100%nat 0%nat
           "test-token" "main" ("test-owner", "test-repo")).
  - reflexivity.
  - reflexivity.
  - reflexivity.
  - left. exists "missing.txt, gone.md".
    split; [reflexivity |]. split; [discriminate |].
    vm_compute. repeat constructor.
Defined.

(** X22.  When the files are to be detected and [git status] fails, [main]
    reports [Failed to detect changed files from git status:] followed by
    the message of the failure, and exits with status 1 without a remote
    call. *)
Theorem main_git_status_failure :
  forall (R : Type) (fs : FileSystem)
         (readdirSync : string -> Result (list string))
         (path_join : string -> string -> string)
         (getOctokit : string -> Result (Octokit R))
         (env : string -> option string)
         (context_repo : Result (string * string))
         (context_ref : option string)
         (execSync : string -> Result string) (stack : nat) (s : R)
         (token branch : string) (repository : string * string) (x : Exn),
    main_token env = Ok token ->
    main_repository env context_repo = Ok repository ->
    main_branch env context_ref = Ok branch ->
    JS.truthy_string (env "FILE_PATHS") = false ->
    execSync "git status --porcelain" = Throw x ->
    main fs readdirSync path_join getOctokit env context_repo context_ref
      execSync stack s
    = ([ SetFailed ("Failed to detect changed files from git status: "
                    ++ exn_message x)%string;
         Exit 1 ], s, []).
Proof.
  intros R fs readdirSync path_join getOctokit env context_repo context_ref
    execSync stack s token branch repository x Ht Hr Hb Hv Hx.
  rewrite (main_prepared fs readdirSync path_join getOctokit env
             context_repo context_ref execSync stack token repository branch
             s Ht Hr Hb).
  unfold main_filePaths. rewrite Hv, Hx. reflexivity.
Qed.



Lemma main_git_status_failure_witness :
  main MockRunner.fs MockRunner.readdirSync MockRunner.path_join
    Mock.getOctokit MockRunner.env_detect MockRunner.context_repo
    MockRunner.context_ref MockRunner.execSync_fails 100%nat 0%nat
  = ([ SetFailed ("Failed to detect changed files from git status: "
                  ++ exn_message
                       (Error "Command failed: git status --porcelain"))%string;
       Exit 1 ], 0%nat, []).
Proof.
  apply (main_git_status_failure nat MockRunner.fs MockRunner.readdirSync
           MockRunner.path_join Mock.getOctokit MockRunner.env_detect
           MockRunner.context_repo MockRunner.context_ref
           MockRunner.execSync_fails 100%nat 0%nat
           "test-token" "dev" ("owner", "repo")); reflexivity.
Defined.
